(** * file-monitor-kube-controller: the reconciliation loop of [main.go]

    A shallow embedding of [main.go] (package [main]) and the properties of
    its three listing functions and of the status write loop.

    Layout:
    - [value], [Unstructured]: the dynamically typed objects the dynamic
      client hands out ([map[string]interface{}] trees);
    - the helpers of [k8s.io/apimachinery] that [main.go] calls
      ([SetNestedSlice], [NestedMap], [GetName], [IsNotFound]), written from
      their documented behaviour;
    - [DynamicInterface]: the client interface, as a type class;
    - a state monad [M] over a world (cluster, wall clock, trace) whose
      computations either finish or panic;
    - [queryCRDs], [queryCRDsInNamespace], [updateCRDWithFileInfo], [cycle]:
      the functions of [main.go];
    - an in-memory cluster implementing the interface, used to run the code
      on concrete inputs;
    - the scan and the differ of the design document, written from its
      words where [main.go] has no counterpart, to compare the code with;
    - the theorems. *)

From stdpp Require Import gmap strings list fin_maps.
From Stdlib Require Import ZArith Ascii String.

#[local] Set Warnings "-register-all".
#[local] Open Scope string_scope.
#[local] Open Scope list_scope.
#[local] Open Scope Z_scope.

(** ** Dynamically typed values

    An [interface{}] inside an unstructured object.  Go keeps the dynamic
    type of a number: the untyped constant [12345] stored in an
    [interface{}] has dynamic type [int], while numbers decoded from the API
    server's JSON have type [int64].  The two are distinct constructors
    because [runtime.DeepCopyJSONValue] tells them apart. *)
Inductive value : Type :=
| VNil
| VBool (b : bool)
| VInt (n : Z)
| VInt64 (n : Z)
| VString (s : string)
| VSlice (l : list value)
| VMap (m : gmap string value).

(** [unstructured.Unstructured]: a struct with the single field [Object]. *)
Record Unstructured : Type := mkUnstructured { Object : gmap string value }.

(** ** Go builtins: errors, results, panics *)

(** [metav1.StatusReason], the reasons this development distinguishes.
    [StatusReasonUnknown] is the empty reason. *)
Inductive StatusReason : Type :=
| StatusReasonUnknown
| StatusReasonNotFound
| StatusReasonConflict
| StatusReasonForbidden
| StatusReasonInternalError
| StatusReasonServiceUnavailable.

(** A Go [error] value: an API status error of the client, or any other
    error, of which only the text matters ([fmt.Errorf], transport errors). *)
Inductive error : Type :=
| StatusError (reason : StatusReason) (code : Z) (message : string)
| PlainError (message : string).

Definition Error (e : error) : string :=
  match e with
  | StatusError _ _ msg => msg
  | PlainError msg => msg
  end.

(** [fmt.Errorf(prefix + "%v", err)]: the verb is [%v], so the result does
    not wrap [err]; it is a new error with the concatenated text. *)
Definition Errorf (prefix : string) (err : error) : error :=
  PlainError (prefix +:+ Error err).

(** A call that returns [(T, error)]. *)
Inductive result (A : Type) : Type :=
| Ok (a : A)
| Err (e : error).
Arguments Ok {A} a.
Arguments Err {A} e.

(** A computation either finishes or panics.  Nothing in [main.go] recovers
    from a panic, so a panic ends the process. *)
Inductive outcome (A : Type) : Type :=
| Done (a : A)
| Panicked (msg : string).
Arguments Done {A} a.
Arguments Panicked {A} msg.

(** ** [k8s.io/apimachinery/pkg/api/errors] *)

(** [knownReasons]: every reason constant except the empty one. *)
Definition knownReason (r : StatusReason) : bool :=
  match r with
  | StatusReasonUnknown => false
  | _ => true
  end.

Definition reasonAndCodeForError (err : error) : StatusReason * Z :=
  match err with
  | StatusError reason code _ => (reason, code)
  | PlainError _ => (StatusReasonUnknown, 0)
  end.

Definition IsNotFound (err : error) : bool :=
  let '(reason, code) := reasonAndCodeForError err in
  match reason with
  | StatusReasonNotFound => true
  | _ => negb (knownReason reason) && Z.eqb code 404
  end.

(** ** [k8s.io/apimachinery/pkg/runtime] and [.../unstructured] helpers *)

(** [runtime.DeepCopyJSONValue]: copies maps and slices recursively, returns
    [string], [int64], [bool] and [nil] as they are, and panics with
    [cannot deep copy <type>] on every other dynamic type, among them [int].
    [None] stands for that panic: the only other type of [value] is [int]. *)
Fixpoint DeepCopyJSONValue (x : value) : option value :=
  match x with
  | VMap m =>
      VMap <$> map_fold
        (fun k v acc => clone ← acc; v' ← DeepCopyJSONValue v; Some (<[k := v']> clone))
        (Some ∅) m
  | VSlice l =>
      VSlice <$> foldr
        (fun v acc => v' ← DeepCopyJSONValue v; clone ← acc; Some (v' :: clone))
        (Some []) l
  | VInt _ => None
  | _ => Some x
  end.

Definition deepCopyPanic : string := "cannot deep copy int".

(** [jsonPath(fields)]: the fields, each after a dot. *)
Definition jsonPath (fields : list string) : string :=
  foldr (fun field rest => "." +:+ field +:+ rest) "" fields.

(** The loop of [setNestedFieldNoCopy]: [walked] are the fields already
    passed, [obj] is the map reached. *)
Fixpoint setNestedFieldFrom (walked : list string) (obj : gmap string value)
    (v : value) (fields : list string) : result (gmap string value) :=
  match fields with
  | [] => Ok obj
  | [field] => Ok (<[field := v]> obj)
  | field :: rest =>
      match obj !! field with
      | Some (VMap valMap) =>
          match setNestedFieldFrom (walked ++ [field]) valMap v rest with
          | Ok valMap' => Ok (<[field := VMap valMap']> obj)
          | Err e => Err e
          end
      | Some _ =>
          Err (PlainError
                 ("value cannot be set because " +:+ jsonPath (walked ++ [field])
                  +:+ " is not a map[string]interface{}"))
      | None =>
          match setNestedFieldFrom (walked ++ [field]) ∅ v rest with
          | Ok newVal => Ok (<[field := VMap newVal]> obj)
          | Err e => Err e
          end
      end
  end.

(** [setNestedFieldNoCopy]: walks [fields] but the last, creating the maps
    that are missing, fails when a level exists and is not a map, and
    stores [value] under the last field.  Go mutates [obj] in place; here
    the updated map is returned.  No map is created before a failure: a
    created map is empty, so the walk below it cannot fail.  [main.go] calls
    it with two fields; with no field at all Go panics on the slice
    expression, a case that is not modelled. *)
Definition setNestedFieldNoCopy (obj : gmap string value) (v : value)
    (fields : list string) : result (gmap string value) :=
  setNestedFieldFrom [] obj v fields.

(** [unstructured.SetNestedField]: the value is deep-copied first (the
    argument is evaluated before the call), then stored. *)
Definition SetNestedField (obj : gmap string value) (v : value)
    (fields : list string) : outcome (result (gmap string value)) :=
  match DeepCopyJSONValue v with
  | None => Panicked deepCopyPanic
  | Some copy => Done (setNestedFieldNoCopy obj copy fields)
  end.

(** [unstructured.SetNestedSlice] is [SetNestedField] at a slice. *)
Definition SetNestedSlice (obj : gmap string value) (v : list value)
    (fields : list string) : outcome (result (gmap string value)) :=
  SetNestedField obj (VSlice v) fields.

(** [unstructured.NestedFieldNoCopy], with "not found" and "wrong type on
    the way" both as [None]: every caller in [main.go] treats them alike. *)
Fixpoint NestedFieldNoCopy (obj : gmap string value) (fields : list string)
    : option value :=
  match fields with
  | [] => Some (VMap obj)
  | [field] => obj !! field
  | field :: rest =>
      match obj !! field with
      | Some (VMap m) => NestedFieldNoCopy m rest
      | _ => None
      end
  end.

(** [unstructured.NestedString], as [GetName] and [GetNamespace] use it:
    the empty string unless the field is there and is a string. *)
Definition getNestedString (obj : gmap string value) (fields : list string)
    : string :=
  match NestedFieldNoCopy obj fields with
  | Some (VString s) => s
  | _ => ""
  end.

Definition GetName (u : Unstructured) : string :=
  getNestedString (Object u) ["metadata"; "name"].

Definition GetNamespace (u : Unstructured) : string :=
  getNestedString (Object u) ["metadata"; "namespace"].

(** [unstructured.NestedMap]: [Done (Some m)] is [found && err == nil]; the
    map found is returned as a deep copy. *)
Definition NestedMap (obj : gmap string value) (fields : list string)
    : outcome (option (gmap string value)) :=
  match NestedFieldNoCopy obj fields with
  | Some (VMap m) =>
      match DeepCopyJSONValue (VMap m) with
      | Some (VMap copy) => Done (Some copy)
      | Some _ => Done None
      | None => Panicked deepCopyPanic
      end
  | _ => Done None
  end.

(** ** [time]

    A [time.Time] is its Unix time in seconds; the location is UTC, as in
    the container image the Dockerfile builds (alpine, with no zone data
    installed and no [TZ] set). *)
Definition Time : Type := Z.

Definition digit (n : Z) : ascii := ascii_of_nat (48 + Z.to_nat (n mod 10))%nat.

Definition pad2 (n : Z) : string :=
  String (digit (n / 10)) (String (digit n) "").

Definition pad4 (n : Z) : string :=
  String (digit (n / 1000)) (String (digit (n / 100)) (pad2 n)).

(** Days since 1970-01-01 to the civil date (year, month, day) of the
    proleptic Gregorian calendar. *)
Definition civil (days : Z) : Z * Z * Z :=
  let z := days + 719468 in
  let era := z / 146097 in
  let doe := z mod 146097 in
  let yoe := (doe - doe / 1460 + doe / 36524 - doe / 146096) / 365 in
  let doy := doe - (365 * yoe + yoe / 4 - yoe / 100) in
  let mp := (5 * doy + 2) / 153 in
  let d := doy - (153 * mp + 2) / 5 + 1 in
  let m := if mp <? 10 then mp + 3 else mp - 9 in
  let y := yoe + era * 400 + (if m <=? 2 then 1 else 0) in
  (y, m, d).

(** [t.Format(time.RFC3339)] for a UTC time with a four-digit year:
    [2006-01-02T15:04:05Z]. *)
Definition Format_RFC3339 (t : Time) : string :=
  let '(y, m, d) := civil (t / 86400) in
  let s := t mod 86400 in
  pad4 y +:+ "-" +:+ pad2 m +:+ "-" +:+ pad2 d +:+ "T"
  +:+ pad2 (s / 3600) +:+ ":" +:+ pad2 (s mod 3600 / 60) +:+ ":"
  +:+ pad2 (s mod 60) +:+ "Z".

(** ** The world and the monad of [main.go]

    What the process can observe and change: the cluster behind the dynamic
    client, the wall clock, and what it has logged and requested so far. *)

(** An argument of a [log.Printf] call. *)
Inductive arg : Type :=
| AStr (s : string)
| AInt (n : Z)
| AVal (v : value)
| AErr (e : error).

(** What the process does that is visible from outside, in order: a log
    line (format string and arguments), a request of the dynamic client, a
    sleep. *)
Inductive event : Type :=
| EvLog (format : string) (args : list arg)
| EvList (namespace : option string)
| EvUpdateStatus (namespace : string) (obj : Unstructured)
| EvSleep (seconds : Z).

(** [dynamic.Interface], restricted to the two requests [main.go] sends for
    the resource [filemonitors.sentinalfs.io/v1].  [Σ] is the state of the
    cluster; a request may change it and may fail. *)
Class DynamicInterface (Σ : Type) : Type := {
  (** [client.Resource(gvr).List] ([None]) and
      [client.Resource(gvr).Namespace(ns).List] ([Some ns]) *)
  client_List : option string -> Σ -> result (list Unstructured) * Σ;
  (** [client.Resource(gvr).Namespace(ns).UpdateStatus(ctx, obj, opts)] *)
  client_UpdateStatus :
    string -> Unstructured -> Σ -> result Unstructured * Σ
}.

Record World (Σ : Type) : Type := mkWorld {
  cluster : Σ;
  (** the value of the [n]-th reading of the wall clock *)
  wall : nat -> Time;
  (** how many times the clock has been read *)
  reads : nat;
  (** the events so far, oldest first *)
  trace : list event
}.
Arguments mkWorld {Σ}.
Arguments cluster {Σ}.
Arguments wall {Σ}.
Arguments reads {Σ}.
Arguments trace {Σ}.

Definition M (Σ A : Type) : Type := World Σ -> outcome A * World Σ.

#[export] Instance M_ret {Σ} : MRet (M Σ) :=
  fun A a w => (Done a, w).

#[export] Instance M_bind {Σ} : MBind (M Σ) :=
  fun A B k c w =>
    match c w with
    | (Done a, w') => k a w'
    | (Panicked msg, w') => (Panicked msg, w')
    end.

Section Effects.
Context {Σ : Type} `{!DynamicInterface Σ}.

Definition emit (e : event) : M Σ unit :=
  fun w => (Done tt, mkWorld (cluster w) (wall w) (reads w) (trace w ++ [e])).

(** [log.Println] and [log.Printf] *)
Definition log (format : string) (args : list arg) : M Σ unit :=
  emit (EvLog format args).

(** [panic(msg)] *)
Definition panic {A} (msg : string) : M Σ A :=
  fun w => (Panicked msg, w).

(** A pure library call that may panic. *)
Definition lift {A} (o : outcome A) : M Σ A :=
  match o with
  | Done a => mret a
  | Panicked msg => panic msg
  end.

(** [time.Now()] *)
Definition time_Now : M Σ Time :=
  fun w => (Done (wall w (reads w)),
            mkWorld (cluster w) (wall w) (S (reads w)) (trace w)).

(** [time.Sleep(d)] *)
Definition time_Sleep (seconds : Z) : M Σ unit :=
  emit (EvSleep seconds).

Definition Resource_List (namespace : option string)
    : M Σ (result (list Unstructured)) :=
  fun w =>
    let '(r, c) := client_List namespace (cluster w) in
    (Done r, mkWorld c (wall w) (reads w) (trace w ++ [EvList namespace])).

Definition Resource_UpdateStatus (namespace : string) (obj : Unstructured)
    : M Σ (result Unstructured) :=
  fun w =>
    let '(r, c) := client_UpdateStatus namespace obj (cluster w) in
    (Done r, mkWorld c (wall w) (reads w)
               (trace w ++ [EvUpdateStatus namespace obj])).

(** [for _, item := range items { body }] *)
Fixpoint forRange {A} (items : list A) (body : A -> M Σ unit) : M Σ unit :=
  match items with
  | [] => mret tt
  | item :: rest => body item;; forRange rest body
  end.
End Effects.

(** ** [main.go] *)

(** The struct [FileInfo] of [main.go], with the field [ModTime] as a
    [time.Time].  The code never builds one: it writes the unstructured
    form directly. *)
Record FileInfo : Type := mkFileInfo {
  Name : string;
  Inode : Z;
  Size : Z;
  ModTime : Time;
  Path : string;
  IsDir : bool
}.

(** The JSON object the struct tags of [FileInfo] describe.  [number] is
    the dynamic type of the two numbers: [VInt64] in an object decoded from
    the API server, [VInt] for Go constants. *)
Definition FileInfo_json (number : Z -> value) (f : FileInfo) : value :=
  VMap {[ "name" := VString (Name f);
          "inode" := number (Inode f);
          "size" := number (Size f);
          "modTime" := VString (Format_RFC3339 (ModTime f));
          "path" := VString (Path f);
          "isDir" := VBool (IsDir f) ]}.

(** The entry that lines 195-202 spell out. *)
Definition placeholder (now : Time) : FileInfo :=
  {| Name := "example.txt"; Inode := 12345; Size := 1024; ModTime := now;
     Path := "/tmp/example.txt"; IsDir := false |}.

(** Lines 194-203: the slice [fileInfo] built for every item.  The numbers
    are untyped constants converted to [interface{}], hence of dynamic type
    [int]; [now] is the value of [time.Now()]. *)
Definition fileInfo (now : Time) : list value :=
  [VMap {[ "name" := VString "example.txt";
           "inode" := VInt 12345;
           "size" := VInt 1024;
           "modTime" := VString (Format_RFC3339 now);
           "path" := VString "/tmp/example.txt";
           "isDir" := VBool false ]}].

Definition statusFiles : list string := ["status"; "files"].

(** The [modTime] of the first entry of a list of entries. *)
Definition modTimeOf (files : list value) : option value :=
  match files with
  | VMap m :: _ => m !! "modTime"
  | _ => None
  end.

Section Controller.
Context {Σ : Type} `{!DynamicInterface Σ}.

(** Lines 118-149. [None] is the [nil] error. *)
Definition queryCRDs : M Σ (option error) :=
  log "Querying CRDs in all namespaces..." [];;
  r ← Resource_List None;
  match r with
  | Err err =>
      if IsNotFound err then
        log "CRD not found - it may not be installed yet" [];;
        mret None
      else mret (Some (Errorf "failed to list CRDs: " err))
  | Ok items =>
      log "Found %d CRDs across all namespaces"
          [AInt (Z.of_nat (Datatypes.length items))];;
      forRange items (fun item =>
        log "CRD: %s in namespace: %s"
            [AStr (GetName item); AStr (GetNamespace item)];;
        spec ← lift (NestedMap (Object item) ["spec"]);
        match spec with
        | Some m => log "  Spec: %+v" [AVal (VMap m)]
        | None => mret tt
        end;;
        status ← lift (NestedMap (Object item) ["status"]);
        match status with
        | Some m => log "  Status: %+v" [AVal (VMap m)]
        | None => mret tt
        end);;
      mret None
  end.

(** Lines 152-172. *)
Definition queryCRDsInNamespace (namespace : string) : M Σ (option error) :=
  log "Querying CRDs in namespace: %s" [AStr namespace];;
  r ← Resource_List (Some namespace);
  match r with
  | Err err =>
      if IsNotFound err then
        log "No CRDs found in namespace %s" [AStr namespace];;
        mret None
      else
        mret (Some (Errorf ("failed to list CRDs in namespace " +:+ namespace
                            +:+ ": ") err))
  | Ok items =>
      log "Found %d CRDs in namespace: %s"
          [AInt (Z.of_nat (Datatypes.length items)); AStr namespace];;
      forRange items (fun item => log "CRD: %s" [AStr (GetName item)]);;
      mret None
  end.

(** Lines 211-218: the status update of one item and its two endings. *)
Definition submitStatus (namespace name : string) (item : Unstructured)
    : M Σ unit :=
  r ← Resource_UpdateStatus namespace item;
  match r with
  | Err err => log "Failed to update CRD %s: %v" [AStr name; AErr err]
  | Ok _ => log "Successfully updated CRD: %s" [AStr name]
  end.

(** Lines 205-218, as a function of the variable [fileInfo]: the slice is
    stored under [status.files] of the item's object, then the item is
    submitted.  A failure to store skips the item ([continue]). *)
Definition writeStatus (namespace name : string) (item : Unstructured)
    (files : list value) : M Σ unit :=
  r ← lift (SetNestedSlice (Object item) files statusFiles);
  match r with
  | Err err =>
      log "Failed to set file info for CRD %s: %v" [AStr name; AErr err]
  | Ok obj => submitStatus namespace name (mkUnstructured obj)
  end.

(** Lines 188-219: the body of the loop over the listed items. *)
Definition updateItem (namespace : string) (item : Unstructured)
    : M Σ unit :=
  let name := GetName item in
  log "Updating CRD: %s" [AStr name];;
  now ← time_Now;
  writeStatus namespace name item (fileInfo now).

(** Lines 175-222. *)
Definition updateCRDWithFileInfo (namespace : string) : M Σ (option error) :=
  log "Updating CRDs with file information in namespace: %s"
      [AStr namespace];;
  r ← Resource_List (Some namespace);
  match r with
  | Err err =>
      if IsNotFound err then
        log "No CRDs found to update in namespace %s" [AStr namespace];;
        mret None
      else mret (Some (Errorf "failed to list CRDs for update: " err))
  | Ok items =>
      forRange items (updateItem namespace);;
      mret None
  end.

(** Lines 63-84: one iteration of the loop of [main].  The clients are
    there when the loop starts: without them [main] ends in [log.Fatalf]
    before its first iteration. *)
Definition cycle : M Σ unit :=
  log "Querying CRDs..." [];;
  err ← queryCRDs;
  match err with
  | Some e => log "Error querying CRDs: %v" [AErr e]
  | None => mret tt
  end;;
  let namespace := "default" in
  err ← queryCRDsInNamespace namespace;
  match err with
  | Some e =>
      log "Error querying CRDs in namespace %s: %v" [AStr namespace; AErr e]
  | None => mret tt
  end;;
  err ← updateCRDWithFileInfo namespace;
  match err with
  | Some e => log "Error updating CRD with file info: %v" [AErr e]
  | None => mret tt
  end;;
  time_Sleep 30.

(** The loop of [main] never ends; [main_loop n] is its first [n]
    iterations. *)
Fixpoint main_loop (n : nat) : M Σ unit :=
  match n with
  | O => mret tt
  | S n' => cycle;; main_loop n'
  end.
End Controller.

(** ** Relations between objects *)

(** [o'] differs from [o] at most in [status.files]: every top-level field
    but [status] is the same, and so is every field of [status] but
    [files]. *)
Definition sameOutsideStatusFiles (o o' : gmap string value) : Prop :=
  (∀ k, k ≠ "status" -> o' !! k = o !! k)
  ∧ (∀ k, k ≠ "files" ->
       NestedFieldNoCopy o' ["status"; k] = NestedFieldNoCopy o ["status"; k]).

(** The object [u] with its [spec] replaced. *)
Definition withSpec (spec : value) (u : Unstructured) : Unstructured :=
  mkUnstructured (<["spec" := spec]> (Object u)).

(** The number of constructors of a value. *)
Fixpoint vsize (v : value) : nat :=
  match v with
  | VSlice l => S (foldr (fun x acc => vsize x + acc)%nat 0%nat l)
  | VMap m => S (map_fold (fun _ x acc => vsize x + acc)%nat 0%nat m)
  | _ => 1%nat
  end.

(** The line that closes [submitStatus], by the answer to the request. *)
Definition updateVerdict (name : string) (r : result Unstructured) : event :=
  match r with
  | Err err => EvLog "Failed to update CRD %s: %v" [AStr name; AErr err]
  | Ok _ => EvLog "Successfully updated CRD: %s" [AStr name]
  end.

(** ** Reading a trace *)

Section Events.
Context {Σ : Type}.

(** The events a computation adds to the trace of the world it starts
    from. *)
Definition events {A} (c : M Σ A) (w : World Σ) : list event :=
  drop (Datatypes.length (trace w)) (trace (c w).2).

(** [appendsAt P c w]: run from [w], [c] leaves the trace in place and
    adds events that all satisfy [P]; [appends P c]: so it does from
    every world. *)
Definition appendsAt {A} (P : event -> Prop) (c : M Σ A) (w : World Σ)
    : Prop :=
  ∃ evs, trace (c w).2 = trace w ++ evs ∧ Forall P evs.

Definition appends {A} (P : event -> Prop) (c : M Σ A) : Prop :=
  ∀ w, appendsAt P c w.
End Events.

Definition updatingFormat : string := "Updating CRD: %s".

(** The names of the items whose processing was started: one
    ["Updating CRD: %s"] line opens every pass through the loop body. *)
Definition processed (t : list event) : list string :=
  omap (fun e =>
          match e with
          | EvLog format [AStr name] =>
              if bool_decide (format = updatingFormat) then Some name else None
          | _ => None
          end) t.

(** The formats of all the lines [updateCRDWithFileInfo] can log, in the
    order of lines 176, 182, 190, 207, 214 and 218. *)
Definition passFormats : list string :=
  ["Updating CRDs with file information in namespace: %s";
   "No CRDs found to update in namespace %s";
   updatingFormat;
   "Failed to set file info for CRD %s: %v";
   "Failed to update CRD %s: %v";
   "Successfully updated CRD: %s"].

(** The string [name] is among the arguments of a line. *)
Definition names (name : string) (args : list arg) : bool :=
  existsb (fun a => match a with AStr s => String.eqb s name | _ => false end)
          args.

(** What a trace reports about the record [name]: the lines that name it,
    the two announcements (of the pass, line 176, and of the record, line
    190) apart. *)
Definition reportsAbout (name : string) (t : list event) : list event :=
  List.filter
    (fun e =>
       match e with
       | EvLog format args =>
           names name args
           && negb (String.eqb format updatingFormat)
           && negb (String.eqb format
                      "Updating CRDs with file information in namespace: %s")
       | _ => false
       end) t.

(** The objects submitted in status updates. *)
Definition updateRequests (t : list event) : list (string * Unstructured) :=
  omap (fun e =>
          match e with
          | EvUpdateStatus ns obj => Some (ns, obj)
          | _ => None
          end) t.

(** The requests of the dynamic client of either kind. *)
Definition isRequest (e : event) : bool :=
  match e with
  | EvList _ | EvUpdateStatus _ _ => true
  | _ => false
  end.

Definition requests (t : list event) : list event := List.filter isRequest t.

(** ** An in-memory cluster

    An implementation of [DynamicInterface] to run the code against: the
    stored objects of the resource, whether the resource type is installed,
    and optimistic concurrency on [metadata.resourceVersion] for status
    updates, as the API server does it. *)
Record Cluster : Type := mkCluster {
  installed : bool;
  objects : list Unstructured
}.

Definition resourceVersion (u : Unstructured) : string :=
  getNestedString (Object u) ["metadata"; "resourceVersion"].

Definition sameIdentity (namespace name : string) (u : Unstructured) : bool :=
  bool_decide (GetNamespace u = namespace) && bool_decide (GetName u = name).

Definition notFound : error :=
  StatusError StatusReasonNotFound 404
    "the server could not find the requested resource".

Definition conflict : error :=
  StatusError StatusReasonConflict 409
    "the object has been modified; please apply your changes to the latest version and try again".

(** The stored object after an accepted status update: only [status] is
    taken from the request, and the version token changes. *)
Definition withStatus (stored request : Unstructured) : Unstructured :=
  let obj :=
    match Object request !! "status" with
    | Some st => <["status" := st]> (Object stored)
    | None => delete "status" (Object stored)
    end in
  match setNestedFieldNoCopy obj (VString (resourceVersion stored +:+ "+"))
          ["metadata"; "resourceVersion"] with
  | Ok obj' => mkUnstructured obj'
  | Err _ => mkUnstructured obj
  end.

Fixpoint storeStatus (namespace : string) (request : Unstructured)
    (objs : list Unstructured) : result Unstructured * list Unstructured :=
  match objs with
  | [] => (Err notFound, [])
  | o :: rest =>
      if sameIdentity namespace (GetName request) o then
        if bool_decide (resourceVersion request = resourceVersion o) then
          let o' := withStatus o request in (Ok o', o' :: rest)
        else (Err conflict, o :: rest)
      else
        let '(r, rest') := storeStatus namespace request rest in
        (r, o :: rest')
  end.

#[export] Instance Cluster_client : DynamicInterface Cluster := {
  client_List namespace c :=
    if installed c then
      (Ok (match namespace with
           | None => objects c
           | Some ns =>
               filter (fun o => GetNamespace o = ns) (objects c)
           end), c)
    else (Err notFound, c);
  client_UpdateStatus namespace request c :=
    if installed c then
      let '(r, objs) := storeStatus namespace request (objects c) in
      (r, mkCluster true objs)
    else (Err notFound, c)
}.

(** A record [FileMonitor] as [kubectl apply] stores it. *)
Definition fileMonitor (namespace name path version : string) : Unstructured :=
  mkUnstructured
    {[ "apiVersion" := VString "sentinalfs.io/v1";
       "kind" := VString "FileMonitor";
       "metadata" := VMap {[ "name" := VString name;
                             "namespace" := VString namespace;
                             "resourceVersion" := VString version ]};
       "spec" := VMap {[ "path" := VString path;
                         "namespace" := VString namespace ]} ]}.

Definition specPath (u : Unstructured) : string :=
  getNestedString (Object u) ["spec"; "path"].

Definition startWorld {Σ} (c : Σ) (clock : nat -> Time) : World Σ :=
  mkWorld c clock 0%nat [].

(** ** The filesystem scan of the design document

    Specification-side definitions (design document, sections 3 and 4.1),
    written from its words to compare the code with: the filesystem is the
    list of its objects with their metadata, and [spec_Scan] is the
    snapshot of a root path. *)
Definition Filesystem : Type := list FileInfo.

Inductive ScanResult : Type :=
| Snapshot (entries : list FileInfo)
| ScanNotFound.

Fixpoint hasSlash (s : string) : bool :=
  match s with
  | EmptyString => false
  | String c rest => bool_decide (c = "/"%char) || hasSlash rest
  end.

(** [p] lies under the directory [root]; with [recursive = false] only as
    a direct child. *)
Definition under (root : string) (recursive : bool) (p : string) : bool :=
  let dir := root +:+ "/" in
  String.prefix dir p
  && negb (String.eqb dir p)
  && (recursive
      || negb (hasSlash (String.substring (String.length dir)
                                          (String.length p) p))).

Fixpoint insertByPath (e : FileInfo) (l : list FileInfo) : list FileInfo :=
  match l with
  | [] => [e]
  | x :: rest =>
      if String.leb (Path e) (Path x) then e :: l
      else x :: insertByPath e rest
  end.

Definition sortByPath (l : list FileInfo) : list FileInfo :=
  foldr insertByPath [] l.

Definition spec_Scan (fs : Filesystem) (rootPath : string) (recursive : bool)
    : ScanResult :=
  match List.find (fun o => String.eqb (Path o) rootPath) fs with
  | None => ScanNotFound
  | Some root =>
      if IsDir root then
        Snapshot (sortByPath
                    (List.filter (fun o => under rootPath recursive (Path o)) fs))
      else Snapshot [root]
  end.

Definition pathExists (fs : Filesystem) (p : string) : Prop :=
  spec_Scan fs p true <> ScanNotFound.

(** ** The status differ of the design document

    [main.go] has no function that compares two lists of entries; the
    definitions below follow section 4.2 of the design document. *)

(** Modelled from the spec: the ChangeSet of section 3, "added entries,
    removed paths, updated entries (old+new pair)".  No type of [main.go]
    corresponds to it. *)
Record ChangeSet : Type := mkChangeSet {
  added : list FileInfo;
  removed : list string;
  updated : list (FileInfo * FileInfo)
}.


(** Modelled from the spec: "keyed by path", the entry of [entries] with
    the path [p]. *)
Definition findByPath (p : string) (entries : list FileInfo)
    : option FileInfo :=
  List.find (fun e => String.eqb (Path e) p) entries.

(** Modelled from the spec: an entry with the path [p] is "present" in
    [entries]. *)
Definition hasPath (p : string) (entries : list FileInfo) : bool :=
  existsb (fun e => String.eqb (Path e) p) entries.

(** Modelled from the spec: no one "of {size, modTime, inode, isDir}
    differs". *)
Definition sameMetadata (a b : FileInfo) : bool :=
  Z.eqb (Size a) (Size b) && Z.eqb (ModTime a) (ModTime b)
  && Z.eqb (Inode a) (Inode b) && Bool.eqb (IsDir a) (IsDir b).

(** Modelled from the spec: [Diff] of section 4.2, missing from [main.go].
    "An entry present only in current → added.  Present only in previous
    → removed.  Present in both but any of {size, modTime, inode, isDir}
    differs → updated.  Identical entries produce no output." *)
Definition Diff (previous current : list FileInfo) : ChangeSet :=
  {| added :=
       List.filter (fun e => negb (hasPath (Path e) previous)) current;
     removed :=
       Path <$> List.filter (fun e => negb (hasPath (Path e) current))
                            previous;
     updated :=
       omap (fun e =>
               match findByPath (Path e) previous with
               | Some old =>
                   if sameMetadata old e then None else Some (old, e)
               | None => None
               end) current |}.


(** ** The statements of the design document, on the code

    Each definition reads one requirement of the design document as a
    property of a run of the code, so that it can be tested on a run. *)

(** Section 4.1 and 4.4: the status stored for a record is the snapshot of
    its root path. *)
Definition statusReflectsScan (fs : Filesystem) (o : Unstructured) : Prop :=
  ∀ recursive entries,
    spec_Scan fs (specPath o) recursive = Snapshot entries ->
    NestedFieldNoCopy (Object o) statusFiles
      = Some (VSlice (FileInfo_json VInt64 <$> entries)).

(** The items a listing of [namespace] returns in the world [w]. *)
Definition listed {Σ} `{!DynamicInterface Σ} (namespace : string)
    (w : World Σ) : list Unstructured :=
  match (client_List (Some namespace) (cluster w)).1 with
  | Ok items => items
  | Err _ => []
  end.

(** Section 8, scenario E: for a listed record whose root path does not
    exist the pass reports something about the record and sends no status
    update for it. *)
Definition reportsMissingPath {Σ} `{!DynamicInterface Σ} (fs : Filesystem)
    (namespace : string) (w : World Σ) : Prop :=
  ∀ item, item ∈ listed namespace w ->
    ¬ pathExists fs (specPath item) ->
    reportsAbout (GetName item) (events (updateCRDWithFileInfo namespace) w)
      ≠ []
    ∧ ∀ ns obj,
        (ns, obj) ∈ updateRequests (events (updateCRDWithFileInfo namespace) w) ->
        GetName obj ≠ GetName item.

(** Section 4.5: every record the enumeration of a cycle returns has its
    processing started exactly once in that cycle. *)
Definition everyRecordProcessedOnce {Σ} `{!DynamicInterface Σ} (w : World Σ)
    : Prop :=
  ∀ items o,
    (client_List None (cluster w)).1 = Ok items -> o ∈ items ->
    Datatypes.length
      (filter (fun name => name = GetName o) (processed (events cycle w)))
    = 1%nat.

(** ** Concrete inputs *)

Definition clock0 : nat -> Time := fun n => 1736762400 + 30 * Z.of_nat n.

Definition recordA : Unstructured := fileMonitor "default" "a" "/data" "1".
Definition recordB : Unstructured := fileMonitor "prod" "b" "/srv" "7".
Definition recordC : Unstructured := fileMonitor "default" "c" "/tmp" "3".

(** [recordA] as a client holds it after somebody else's update: its
    version token is no longer the stored one. *)
Definition staleA : Unstructured := fileMonitor "default" "a" "/data" "0".

Definition notInstalled : Cluster := mkCluster false [].
Definition emptyCluster : Cluster := mkCluster true [].
Definition oneRecord : Cluster := mkCluster true [recordA].
Definition twoRecords : Cluster := mkCluster true [recordA; recordC].
Definition twoNamespaces : Cluster := mkCluster true [recordA; recordB].

(** A filesystem with the directory [/data] and one file in it. *)
Definition dataFile : FileInfo :=
  {| Name := "a.txt"; Inode := 17; Size := 10; ModTime := 1736700000;
     Path := "/data/a.txt"; IsDir := false |}.

Definition dataFs : Filesystem :=
  [ {| Name := "data"; Inode := 2; Size := 4096; ModTime := 1736700000;
       Path := "/data"; IsDir := true |};
    dataFile ].

(** The two files of scenarios A to C of the design document. *)
Definition aTxt (size : Z) : FileInfo :=
  {| Name := "a.txt"; Inode := 17; Size := size; ModTime := 1736700000;
     Path := "/data/a.txt"; IsDir := false |}.

Definition bTxt : FileInfo :=
  {| Name := "b.txt"; Inode := 18; Size := 20; ModTime := 1736700000;
     Path := "/data/b.txt"; IsDir := false |}.

(** Record [a] with another root path, and the cluster that holds it. *)
Definition elsewhere : value := VMap {[ "path" := VString "/nowhere" ]}.
Definition oneRecordElsewhere : Cluster :=
  mkCluster true [withSpec elsewhere recordA].

(** The placeholder entry with its numbers as the API server returns
    them. *)
Definition entries64 (now : Time) : list value :=
  [FileInfo_json VInt64 (placeholder now)].

(** The object [u] with [files] as its [status.files]. *)
Definition withFiles (files : list value) (u : Unstructured) : Unstructured :=
  mkUnstructured (<["status" := VMap {["files" := VSlice files]}]> (Object u)).

(** ** The start of the process (lines 46-51 and 88-115) *)

Section Bootstrap.
Context {Config Clientset Dynamic : Type}.

(** What [initKubernetesClients] finds around it: the answer of
    [rest.InClusterConfig()], the path [clientcmd.RecommendedHomeFile], and
    the three library calls that take arguments. *)
Record Environment : Type := mkEnvironment {
  rest_InClusterConfig : result Config;
  clientcmd_RecommendedHomeFile : string;
  clientcmd_BuildConfigFromFlags : string -> string -> result Config;
  kubernetes_NewForConfig : Config -> result Clientset;
  dynamic_NewForConfig : Config -> result Dynamic
}.

(** Lines 102-114: the two clients of one configuration. *)
Definition clientsFor (env : Environment) (config : Config)
    : result (Clientset * Dynamic) :=
  match kubernetes_NewForConfig env config with
  | Err err => Err (Errorf "failed to create clientset: " err)
  | Ok clientset =>
      match dynamic_NewForConfig env config with
      | Err err => Err (Errorf "failed to create dynamic client: " err)
      | Ok dynamicClient => Ok (clientset, dynamicClient)
      end
  end.

(** Lines 88-115.  The three results of Go are a pair or an error. *)
Definition initKubernetesClients (env : Environment)
    : result (Clientset * Dynamic) :=
  match rest_InClusterConfig env with
  | Ok config => clientsFor env config
  | Err _ =>
      match clientcmd_BuildConfigFromFlags env ""
              (clientcmd_RecommendedHomeFile env) with
      | Err err => Err (Errorf "failed to build config: " err)
      | Ok config => clientsFor env config
      end
  end.
End Bootstrap.
Arguments Environment : clear implicits.

(** ** More readers and inputs *)

(** The world [w] after a request that left the cluster as [c], with the
    events [evs] added. *)
Definition advance {Σ} (c : Σ) (evs : list event) (w : World Σ) : World Σ :=
  mkWorld c (wall w) (reads w) (trace w ++ evs).

(** [logsOnly c]: whatever the world, [c] does nothing but log: it sends
    no request and reads no clock. *)
Definition logsOnly {Σ A} (c : M Σ A) : Prop :=
  ∀ w, ∃ o logs,
    c w = (o, advance (cluster w) logs w)
    ∧ Forall (fun e => ∃ format args, e = EvLog format args) logs.

(** The seconds slept. *)
Definition sleeps (t : list event) : list Z :=
  omap (fun e => match e with EvSleep s => Some s | _ => None end) t.

(** The field [field] of the object when it is a map. *)
Definition mapField (field : string) (u : Unstructured)
    : option (gmap string value) :=
  match Object u !! field with
  | Some (VMap m) => Some m
  | _ => None
  end.

(** The lines [queryCRDs] logs for one item (lines 133-145). *)
Definition queryCRDsItemLines (item : Unstructured) : list event :=
  [EvLog "CRD: %s in namespace: %s"
         [AStr (GetName item); AStr (GetNamespace item)]]
  ++ match mapField "spec" item with
     | Some m => [EvLog "  Spec: %+v" [AVal (VMap m)]]
     | None => []
     end
  ++ match mapField "status" item with
     | Some m => [EvLog "  Status: %+v" [AVal (VMap m)]]
     | None => []
     end.

(** Lines 133-145: the body of the loop of [queryCRDs]. *)
Definition queryCRDsItem {Σ} (item : Unstructured) : M Σ unit :=
  log "CRD: %s in namespace: %s"
      [AStr (GetName item); AStr (GetNamespace item)];;
  spec ← lift (NestedMap (Object item) ["spec"]);
  match spec with
  | Some m => log "  Spec: %+v" [AVal (VMap m)]
  | None => mret tt
  end;;
  status ← lift (NestedMap (Object item) ["status"]);
  match status with
  | Some m => log "  Status: %+v" [AVal (VMap m)]
  | None => mret tt
  end.

(** The three listings of a cycle. *)
Definition cycleListings : list event :=
  [EvList None; EvList (Some "default"); EvList (Some "default")].

(** The line [main] logs for the error a function returned. *)
Definition errorLine (format : string) (args : list arg) (err : option error)
    : list event :=
  match err with
  | Some e => [EvLog format (args ++ [AErr e])]
  | None => []
  end.

Definition serviceUnavailable : error :=
  StatusError StatusReasonServiceUnavailable 503
    "the server is currently unable to handle the request".

(** A cluster that cannot be reached: every request fails with "service
    unavailable". *)
Inductive Unreachable : Type := unreachable.

#[export] Instance Unreachable_client : DynamicInterface Unreachable := {
  client_List _ c := (Err serviceUnavailable, c);
  client_UpdateStatus _ _ c := (Err serviceUnavailable, c)
}.

(** An environment outside a cluster, with a kubeconfig: configurations
    are named by strings, clients by the configuration they were built
    from. *)
Definition outsideCluster : Environment string string string :=
  {| rest_InClusterConfig :=
       Err (PlainError "unable to load in-cluster configuration");
     clientcmd_RecommendedHomeFile := "/root/.kube/config";
     clientcmd_BuildConfigFromFlags := fun _ path => Ok path;
     kubernetes_NewForConfig := fun config => Ok config;
     dynamic_NewForConfig := fun config => Ok config |}.

(** An environment with no configuration at all. *)
Definition noConfig : Environment string string string :=
  {| rest_InClusterConfig :=
       Err (PlainError "unable to load in-cluster configuration");
     clientcmd_RecommendedHomeFile := "/root/.kube/config";
     clientcmd_BuildConfigFromFlags :=
       fun _ path => Err (PlainError ("stat " +:+ path +:+ ": no such file or directory"));
     kubernetes_NewForConfig := fun config => Ok config;
     dynamic_NewForConfig := fun config => Ok config |}.
(** ** Reasoning about computations *)

Section Reasoning.
Context {Σ : Type} `{!DynamicInterface Σ}.

Lemma events_of_appended {A} (c : M Σ A) (w : World Σ) (evs : list event) :
  trace (c w).2 = trace w ++ evs -> events c w = evs.
Proof. intros E. unfold events. rewrite E. apply drop_app_length. Qed.

Lemma appends_ret {A} (P : event -> Prop) (a : A) : appends P (mret a : M Σ A).
Proof. intros w. exists []. split; [by rewrite app_nil_r | constructor]. Qed.

Lemma appends_panic {A} (P : event -> Prop) (msg : string) :
  appends P (panic msg : M Σ A).
Proof. intros w. exists []. split; [by rewrite app_nil_r | constructor]. Qed.

Lemma appends_lift {A} (P : event -> Prop) (o : outcome A) :
  appends P (lift o : M Σ A).
Proof. destruct o; [apply appends_ret | apply appends_panic]. Qed.

Lemma appends_emit (P : event -> Prop) (e : event) : P e -> appends P (emit e : M Σ unit).
Proof. intros HP w. exists [e]. split; [done | by repeat constructor]. Qed.

Lemma appends_time_Now (P : event -> Prop) : appends P (time_Now : M Σ Time).
Proof. intros w. exists []. split; [by rewrite app_nil_r | constructor]. Qed.

Lemma appends_List (P : event -> Prop) (namespace : option string) :
  P (EvList namespace) -> appends P (Resource_List namespace).
Proof.
  intros HP w. exists [EvList namespace]. unfold Resource_List.
  destruct (client_List namespace (cluster w)) as [r c].
  split; [done | by repeat constructor].
Qed.

Lemma appends_UpdateStatus (P : event -> Prop) (namespace : string)
    (obj : Unstructured) :
  P (EvUpdateStatus namespace obj) ->
  appends P (Resource_UpdateStatus namespace obj).
Proof.
  intros HP w. exists [EvUpdateStatus namespace obj].
  unfold Resource_UpdateStatus.
  destruct (client_UpdateStatus namespace obj (cluster w)) as [r c].
  split; [done | by repeat constructor].
Qed.

Lemma appendsAt_bind {A B} (P : event -> Prop) (c : M Σ A) (k : A -> M Σ B)
    (w : World Σ) :
  appendsAt P c w ->
  (∀ a w1, c w = (Done a, w1) -> appendsAt P (k a) w1) ->
  appendsAt P (c ≫= k) w.
Proof.
  intros (evs & E & HP) Hk.
  unfold appendsAt, mbind, M_bind in *.
  destruct (c w) as [[a | msg] w1]; simpl in *.
  - destruct (Hk a w1 eq_refl) as (evs' & E' & HP').
    exists (evs ++ evs'). split.
    + by rewrite E', E, app_assoc.
    + by apply Forall_app.
  - by exists evs.
Qed.

Lemma appends_bind {A B} (P : event -> Prop) (c : M Σ A) (k : A -> M Σ B) :
  appends P c -> (∀ a, appends P (k a)) -> appends P (c ≫= k).
Proof.
  intros Hc Hk w. apply appendsAt_bind; [apply Hc |].
  intros a w1 _. apply Hk.
Qed.

Lemma appends_forRange {A} (P : event -> Prop) (items : list A)
    (body : A -> M Σ unit) :
  (∀ item, item ∈ items -> appends P (body item)) ->
  appends P (forRange items body).
Proof.
  induction items as [| item rest IH]; simpl; intros Hbody.
  - apply appends_ret.
  - apply appends_bind; [apply Hbody; left |].
    intros _. apply IH. intros x Hx. apply Hbody. by right.
Qed.

(** The events of a sequence are those of its parts, one after the
    other. *)
Lemma events_bind {A B} (P : event -> Prop) (c : M Σ A) (k : A -> M Σ B)
    (w : World Σ) :
  appends P c -> (∀ a, appends P (k a)) ->
  events (c ≫= k) w =
    events c w ++ match c w with
                  | (Done a, w1) => events (k a) w1
                  | (Panicked _, _) => []
                  end.
Proof.
  intros Hc Hk. destruct (Hc w) as (evs & E & _).
  rewrite (events_of_appended c w evs E).
  apply events_of_appended. unfold mbind, M_bind.
  destruct (c w) as [[a | msg] w1]; simpl in *.
  - destruct (Hk a w1) as (evs' & E' & _).
    rewrite (events_of_appended _ _ _ E'). by rewrite E', E, app_assoc.
  - by rewrite app_nil_r.
Qed.
End Reasoning.

(** Unfolds the monad of [main.go] down to worlds and outcomes. *)
Ltac run :=
  unfold mbind, mret, M_bind, M_ret, log, emit, time_Sleep, time_Now,
    Resource_List, Resource_UpdateStatus, lift, panic in *;
  simpl in *.

(** ** Listing errors (lines 121-128, 155-162, 179-186) *)

Section Listing.
Context {Σ : Type} `{!DynamicInterface Σ}.

(** A listing that succeeds with no item makes each function return
    [nil]. *)
Lemma empty_listing_returns_nil (namespace : string) (w : World Σ) :
  (∀ c, client_List None (cluster w) = (Ok [], c) ->
        (queryCRDs w).1 = Done None)
  ∧ (∀ c, client_List (Some namespace) (cluster w) = (Ok [], c) ->
          (queryCRDsInNamespace namespace w).1 = Done None
          ∧ (updateCRDWithFileInfo namespace w).1 = Done None).
Proof.
  split; [intros c H1 | intros c H2; split].
  all: unfold queryCRDs, queryCRDsInNamespace, updateCRDWithFileInfo.
  all: run; rewrite ?H1, ?H2; done.
Qed.

(** C9. Let the listing request of a function fail with [err].  When
    [errors.IsNotFound err] holds, each of [queryCRDs],
    [queryCRDsInNamespace] and [updateCRDWithFileInfo] logs one line about
    it after the request and returns [nil]; this is the value the function
    returns as well when the listing succeeds with no item, so the caller
    cannot tell the two apart.  For every other listing error the function
    logs nothing more and returns an error with the text of the listing
    error. *)
Theorem listing_error_handling (namespace : string) (w : World Σ)
    (err : error) :
  let answer prefix :=
    if IsNotFound err then None else Some (Errorf prefix err) in
  let logged line :=
    if IsNotFound err then [line] else [] in
  (∀ c, client_List None (cluster w) = (Err err, c) ->
     (queryCRDs w).1 = Done (answer "failed to list CRDs: ")
     ∧ events queryCRDs w =
         [EvLog "Querying CRDs in all namespaces..." []; EvList None]
         ++ logged (EvLog "CRD not found - it may not be installed yet" []))
  ∧ (∀ c, client_List (Some namespace) (cluster w) = (Err err, c) ->
       ((queryCRDsInNamespace namespace w).1 =
          Done (answer ("failed to list CRDs in namespace " +:+ namespace
                        +:+ ": "))
        ∧ events (queryCRDsInNamespace namespace) w =
            [EvLog "Querying CRDs in namespace: %s" [AStr namespace];
             EvList (Some namespace)]
            ++ logged (EvLog "No CRDs found in namespace %s" [AStr namespace]))
       ∧ ((updateCRDWithFileInfo namespace w).1 =
            Done (answer "failed to list CRDs for update: ")
          ∧ events (updateCRDWithFileInfo namespace) w =
              [EvLog "Updating CRDs with file information in namespace: %s"
                     [AStr namespace];
               EvList (Some namespace)]
              ++ logged (EvLog "No CRDs found to update in namespace %s"
                               [AStr namespace])))
  ∧ (∀ w0, IsNotFound err = true ->
       (∀ c, client_List None (cluster w0) = (Ok [], c) ->
             (queryCRDs w0).1 = Done (answer "failed to list CRDs: "))
       ∧ (∀ c, client_List (Some namespace) (cluster w0) = (Ok [], c) ->
               (queryCRDsInNamespace namespace w0).1 =
                 Done (answer ("failed to list CRDs in namespace "
                               +:+ namespace +:+ ": "))
               ∧ (updateCRDWithFileInfo namespace w0).1 =
                   Done (answer "failed to list CRDs for update: "))).
Proof.
  intros answer logged. subst answer logged. split; [| split].
  - intros c H1. unfold events, queryCRDs. run. rewrite H1.
    destruct (IsNotFound err); simpl;
      rewrite <- ?app_assoc, ?drop_app_length; done.
  - intros c H2.
    unfold events, queryCRDsInNamespace, updateCRDWithFileInfo. run.
    rewrite H2.
    destruct (IsNotFound err); simpl;
      rewrite <- ?app_assoc, ?drop_app_length; done.
  - intros w0 ->. apply empty_listing_returns_nil.
Qed.
End Listing.

(** ** The helpers of apimachinery *)

Lemma vsize_lookup (m : gmap string value) (k : string) (v : value) :
  m !! k = Some v -> (vsize v < vsize (VMap m))%nat.
Proof.
  simpl. revert k v.
  apply (map_fold_weak_ind
           (fun r m => ∀ k v, m !! k = Some v -> (vsize v < S r)%nat)).
  - intros k v. by rewrite lookup_empty.
  - intros i x m' r _ IH k v. rewrite lookup_insert.
    case_decide; intros Hk; simplify_eq; [lia |].
    specialize (IH _ _ Hk). lia.
Qed.

Lemma vsize_elem (l : list value) (v : value) :
  v ∈ l -> (vsize v < vsize (VSlice l))%nat.
Proof.
  simpl. induction 1 as [| ? ? ? _ IH]; simpl; lia.
Qed.

(** Copying the elements of a slice one by one with a copy function that
    returns its argument gives the slice back. *)
Lemma copy_slice_same (f : value -> option value) (l r : list value) :
  (∀ x c, x ∈ l -> f x = Some c -> c = x) ->
  foldr (fun v acc => v' ← f v; clone ← acc; Some (v' :: clone)) (Some []) l
    = Some r ->
  r = l.
Proof.
  revert r. induction l as [| x l IH]; simpl; intros r Hf E.
  - congruence.
  - destruct (f x) as [x' |] eqn:Ex; simpl in E; [| done].
    destruct (foldr _ _ l) as [l' |] eqn:El; simpl in E; [| done].
    simplify_eq. f_equal.
    + apply Hf; [left | done].
    + apply IH; [| done]. intros y c Hy. apply Hf. by right.
Qed.

(** The same for the fields of a map. *)
Lemma copy_map_same (f : value -> option value) (m r : gmap string value) :
  (∀ k x c, m !! k = Some x -> f x = Some c -> c = x) ->
  map_fold (fun k v acc => clone ← acc; v' ← f v; Some (<[k := v']> clone))
    (Some ∅) m = Some r ->
  r = m.
Proof.
  revert r.
  apply (map_fold_weak_ind
           (fun (o : option (gmap string value)) (m : gmap string value) =>
              ∀ r, (∀ k x c, m !! k = Some x -> f x = Some c -> c = x) ->
                   o = Some r -> r = m)).
  - intros r _ E. congruence.
  - intros i x m' o Hi IH r Hf E.
    destruct o as [clone |]; simpl in E; [| done].
    destruct (f x) as [x' |] eqn:Ex; simpl in E; [| done].
    simplify_eq. f_equal.
    + apply (Hf i); [by rewrite lookup_insert_eq | done].
    + apply IH; [| done]. intros k y c Hk. apply (Hf k).
      rewrite lookup_insert_ne; [done | congruence].
Qed.

(** A deep copy that does not panic is equal to the original. *)
Lemma DeepCopyJSONValue_same (v copy : value) :
  DeepCopyJSONValue v = Some copy -> copy = v.
Proof.
  remember (vsize v) as n eqn:Hn. revert v copy Hn.
  induction n as [n IH] using lt_wf_ind. intros v copy Hn.
  destruct v as [| b | i | i | s | l | m]; simpl; try congruence.
  - destruct (foldr _ _ l) as [l' |] eqn:El; simpl; [| done].
    intros [= <-]. f_equal.
    apply (copy_slice_same DeepCopyJSONValue); [| done].
    intros x c Hx. apply (IH (vsize x)); [| done].
    subst n. by apply vsize_elem.
  - destruct (map_fold _ _ m) as [m' |] eqn:Em; simpl; [| done].
    intros [= <-]. f_equal.
    apply (copy_map_same DeepCopyJSONValue); [| done].
    intros k x c Hk. apply (IH (vsize x)); [| done].
    subst n. by eapply vsize_lookup.
Qed.

(** What [SetNestedSlice] does at the path [status.files]. *)
Lemma SetNestedSlice_statusFiles (obj : gmap string value) (files : list value) :
  SetNestedSlice obj files statusFiles =
    match DeepCopyJSONValue (VSlice files) with
    | None => Panicked deepCopyPanic
    | Some _ =>
        match obj !! "status" with
        | Some (VMap st) =>
            Done (Ok (<["status" := VMap (<["files" := VSlice files]> st)]> obj))
        | Some _ =>
            Done (Err (PlainError
              "value cannot be set because .status is not a map[string]interface{}"))
        | None =>
            Done (Ok (<["status" := VMap {["files" := VSlice files]}]> obj))
        end
    end.
Proof.
  unfold SetNestedSlice, SetNestedField.
  destruct (DeepCopyJSONValue (VSlice files)) as [copy |] eqn:E; [| done].
  apply DeepCopyJSONValue_same in E as ->.
  unfold statusFiles, setNestedFieldNoCopy. simpl.
  destruct (obj !! "status") as [[] |]; done.
Qed.

Lemma SetNestedSlice_frame (obj obj' : gmap string value) (files : list value) :
  SetNestedSlice obj files statusFiles = Done (Ok obj') ->
  sameOutsideStatusFiles obj obj'
  ∧ NestedFieldNoCopy obj' statusFiles = Some (VSlice files).
Proof.
  rewrite SetNestedSlice_statusFiles.
  destruct (DeepCopyJSONValue (VSlice files)); [| done].
  unfold sameOutsideStatusFiles, statusFiles.
  destruct (obj !! "status") as [[| | | | | | st] |] eqn:Est; try done.
  all: intros [= <-]; simpl; rewrite !lookup_insert_eq.
  all: repeat split; try (by rewrite lookup_insert_eq).
  all: try (intros k Hk; by rewrite lookup_insert_ne).
  - intros k Hk. rewrite Est. by rewrite lookup_insert_ne.
  - intros k Hk. rewrite Est. by rewrite lookup_singleton_ne.
Qed.

(** ** The write block (lines 205-218) *)

Section WriteBlock.
Context {Σ : Type} `{!DynamicInterface Σ}.

Lemma submitStatus_run (namespace name : string) (item : Unstructured)
    (w : World Σ) :
  submitStatus namespace name item w =
    (Done tt,
     mkWorld (client_UpdateStatus namespace item (cluster w)).2
       (wall w) (reads w)
       (trace w ++ [EvUpdateStatus namespace item;
                    updateVerdict name
                      (client_UpdateStatus namespace item (cluster w)).1])).
Proof.
  unfold submitStatus. run.
  destruct (client_UpdateStatus namespace item (cluster w)) as [[u | err] c];
    simpl; by rewrite <- app_assoc.
Qed.

Lemma writeStatus_run (namespace name : string) (item : Unstructured)
    (files : list value) (w : World Σ) :
  writeStatus namespace name item files w =
    match SetNestedSlice (Object item) files statusFiles with
    | Panicked msg => (Panicked msg, w)
    | Done (Err err) =>
        (Done tt,
         mkWorld (cluster w) (wall w) (reads w)
           (trace w ++ [EvLog "Failed to set file info for CRD %s: %v"
                              [AStr name; AErr err]]))
    | Done (Ok obj) => submitStatus namespace name (mkUnstructured obj) w
    end.
Proof.
  unfold writeStatus. unfold mbind, M_bind, lift.
  destruct (SetNestedSlice (Object item) files statusFiles) as [[obj | err] | msg];
    done.
Qed.

Lemma events_submitStatus (namespace name : string) (item : Unstructured)
    (w : World Σ) :
  events (submitStatus namespace name item) w =
    [EvUpdateStatus namespace item;
     updateVerdict name (client_UpdateStatus namespace item (cluster w)).1].
Proof.
  apply events_of_appended. by rewrite submitStatus_run.
Qed.

Lemma events_writeStatus (namespace name : string) (item : Unstructured)
    (files : list value) (w : World Σ) :
  events (writeStatus namespace name item files) w =
    match SetNestedSlice (Object item) files statusFiles with
    | Panicked msg => []
    | Done (Err err) =>
        [EvLog "Failed to set file info for CRD %s: %v" [AStr name; AErr err]]
    | Done (Ok obj) =>
        events (submitStatus namespace name (mkUnstructured obj)) w
    end.
Proof.
  unfold events at 1. rewrite writeStatus_run.
  destruct (SetNestedSlice (Object item) files statusFiles) as [[obj | err] | msg];
    simpl.
  - done.
  - by rewrite drop_app_length.
  - by rewrite drop_all.
Qed.

Lemma updateVerdict_not_request (name : string) (r : result Unstructured) :
  isRequest (updateVerdict name r) = false.
Proof. by destruct r. Qed.

Lemma updateRequests_submitStatus (namespace name : string)
    (item : Unstructured) (w : World Σ) :
  updateRequests (events (submitStatus namespace name item) w) =
    [(namespace, item)].
Proof.
  rewrite events_submitStatus.
  by destruct (client_UpdateStatus namespace item (cluster w)).1.
Qed.

Lemma updateRequests_writeStatus (namespace name : string)
    (item : Unstructured) (files : list value) (w : World Σ) :
  updateRequests (events (writeStatus namespace name item files) w) =
    match SetNestedSlice (Object item) files statusFiles with
    | Done (Ok obj) => [(namespace, mkUnstructured obj)]
    | _ => []
    end.
Proof.
  rewrite events_writeStatus.
  destruct (SetNestedSlice (Object item) files statusFiles) as [[obj | err] | msg];
    [apply updateRequests_submitStatus | done | done].
Qed.

End WriteBlock.

Section LoopBody.
Context {Σ : Type} `{!DynamicInterface Σ}.

Lemma appends_submitStatus (P : event -> Prop) (namespace name : string)
    (item : Unstructured) :
  (∀ format args, P (EvLog format args)) ->
  P (EvUpdateStatus namespace item) ->
  appends P (submitStatus namespace name item).
Proof.
  intros Hlog Hreq w.
  exists (events (submitStatus namespace name item) w). split.
  - rewrite events_submitStatus. by rewrite submitStatus_run.
  - rewrite events_submitStatus. repeat constructor; [done |].
    destruct (client_UpdateStatus namespace item (cluster w)).1; apply Hlog.
Qed.

Lemma appends_writeStatus (P : event -> Prop) (namespace name : string)
    (item : Unstructured) (files : list value) :
  (∀ format args, P (EvLog format args)) ->
  (∀ obj, SetNestedSlice (Object item) files statusFiles = Done (Ok obj) ->
          P (EvUpdateStatus namespace (mkUnstructured obj))) ->
  appends P (writeStatus namespace name item files).
Proof.
  intros Hlog Hreq w. unfold appendsAt. rewrite writeStatus_run.
  destruct (SetNestedSlice (Object item) files statusFiles)
    as [[obj | err] | msg].
  - apply appends_submitStatus; auto.
  - eexists. split; [done |]. repeat constructor. apply Hlog.
  - exists []. split; [by rewrite app_nil_r | constructor].
Qed.

Lemma appends_updateItem (P : event -> Prop) (namespace : string)
    (item : Unstructured) :
  (∀ format args, P (EvLog format args)) ->
  (∀ obj, sameOutsideStatusFiles (Object item) obj ->
          P (EvUpdateStatus namespace (mkUnstructured obj))) ->
  appends P (updateItem namespace item).
Proof.
  intros Hlog Hreq. unfold updateItem.
  apply appends_bind; [apply appends_emit, Hlog | intros _].
  apply appends_bind; [apply appends_time_Now | intros now].
  apply appends_writeStatus; [done |].
  intros obj E. apply Hreq. by apply SetNestedSlice_frame in E as [? _].
Qed.

(** The events of [updateCRDWithFileInfo] from [w]: log lines, the one
    listing, and status updates for listed items. *)
Lemma appendsAt_updateCRDWithFileInfo (P : event -> Prop)
    (namespace : string) (w : World Σ) :
  (∀ format args, P (EvLog format args)) ->
  P (EvList (Some namespace)) ->
  (∀ items item obj,
     (client_List (Some namespace) (cluster w)).1 = Ok items ->
     item ∈ items ->
     sameOutsideStatusFiles (Object item) obj ->
     P (EvUpdateStatus namespace (mkUnstructured obj))) ->
  appendsAt P (updateCRDWithFileInfo namespace) w.
Proof.
  intros Hlog Hlist Hreq. unfold updateCRDWithFileInfo.
  apply appendsAt_bind; [apply appends_emit, Hlog |].
  intros u w1 Ew. unfold emit in Ew. injection Ew as _ <-. clear u.
  apply appendsAt_bind; [by apply appends_List |].
  intros r w2 E. unfold Resource_List in E. cbn in E.
  destruct (client_List (Some namespace) (cluster w)) as [r' c] eqn:El.
  injection E as Er <-. subst r'. simpl in Hreq.
  destruct r as [items | err].
  - apply appends_bind; [| intros _; apply appends_ret].
    apply appends_forRange. intros item Hitem.
    apply appends_updateItem; [done |]. intros obj Hobj.
    exact (Hreq items item obj eq_refl Hitem Hobj).
  - destruct (IsNotFound err); [| apply appends_ret].
    apply appends_bind; [apply appends_emit, Hlog | intros _; apply appends_ret].
Qed.

Lemma Forall_updateRequests (P : event -> Prop)
    (Q : string * Unstructured -> Prop) (evs : list event) :
  (∀ ns obj, P (EvUpdateStatus ns obj) -> Q (ns, obj)) ->
  Forall P evs -> Forall Q (updateRequests evs).
Proof.
  intros HPQ. induction 1 as [| e evs He _ IH]; [constructor |].
  destruct e; simpl; auto.
Qed.
End LoopBody.

Section WriteBlockProperties.
Context {Σ : Type} `{!DynamicInterface Σ}.

(** C10. Every status update the write block submits carries the
    record's object changed at most in [status.files]: all other
    top-level fields, [metadata] and [spec] among them, and all other
    fields of [status] are those of the object the block was given, and
    the request goes to the namespace it was given.  The same holds for
    every status update of [updateCRDWithFileInfo], with respect to one
    of the listed items. *)
Theorem only_status_files_modified (namespace : string) (w : World Σ) :
  (∀ name item files,
     Forall (fun '(ns, obj) =>
               ns = namespace
               ∧ sameOutsideStatusFiles (Object item) (Object obj))
       (updateRequests (events (writeStatus namespace name item files) w)))
  ∧ match (client_List (Some namespace) (cluster w)).1 with
    | Ok items =>
        Forall (fun '(ns, obj) =>
                  ns = namespace
                  ∧ ∃ item, item ∈ items
                      ∧ sameOutsideStatusFiles (Object item) (Object obj))
          (updateRequests (events (updateCRDWithFileInfo namespace) w))
    | Err _ =>
        updateRequests (events (updateCRDWithFileInfo namespace) w) = []
    end.
Proof.
  split.
  - intros name item files. rewrite updateRequests_writeStatus.
    destruct (SetNestedSlice (Object item) files statusFiles)
      as [[obj | err] | msg] eqn:E; [| constructor | constructor].
    apply SetNestedSlice_frame in E as [Hsame _].
    constructor; [done | constructor].
  - pose (P := fun e =>
                 match e with
                 | EvUpdateStatus ns obj =>
                     ns = namespace
                     ∧ match (client_List (Some namespace) (cluster w)).1 with
                       | Ok items =>
                           ∃ item, item ∈ items
                             ∧ sameOutsideStatusFiles (Object item) (Object obj)
                       | Err _ => False
                       end
                 | _ => True
                 end).
    destruct (appendsAt_updateCRDWithFileInfo P namespace w)
      as (evs & E & HP); subst P; simpl; try done.
    { intros items item obj ->. eauto. }
    rewrite (events_of_appended _ _ _ E).
    destruct (client_List (Some namespace) (cluster w)).1 as [items | err].
    + eapply Forall_updateRequests; [| exact HP]. by intros ns obj [-> ?].
    + assert (Forall (fun _ => False) (updateRequests evs)) as HF.
      { eapply Forall_updateRequests; [| exact HP]. by intros ns obj [_ ?]. }
      destruct (updateRequests evs); [done | by inversion HF].
Qed.
End WriteBlockProperties.

(** ** The entries written (lines 194-203) *)

Lemma fileInfo_placeholder (now : Time) :
  fileInfo now = [FileInfo_json VInt (placeholder now)].
Proof. reflexivity. Qed.

Lemma fileInfo_modTime (now : Time) :
  modTimeOf (fileInfo now) = Some (VString (Format_RFC3339 now)).
Proof.
  unfold fileInfo. generalize (Format_RFC3339 now) as stamp.
  intros stamp. reflexivity.
Qed.

(** The entries of [fileInfo] hold Go [int]s, which the deep copy of
    [SetNestedSlice] rejects. *)
Lemma fileInfo_not_copyable (now : Time) :
  DeepCopyJSONValue (VSlice (fileInfo now)) = None.
Proof.
  unfold fileInfo. generalize (Format_RFC3339 now) as stamp.
  intros stamp. vm_compute. reflexivity.
Qed.

Section Entries.
Context {Σ : Type} `{!DynamicInterface Σ}.

Lemma updateItem_run (namespace : string) (item : Unstructured)
    (w : World Σ) :
  updateItem namespace item w =
    writeStatus namespace (GetName item) item (fileInfo (wall w (reads w)))
      (mkWorld (cluster w) (wall w) (S (reads w))
         (trace w ++ [EvLog updatingFormat [AStr (GetName item)]])).
Proof. reflexivity. Qed.

(** C1 (as amended). For every item the loop body passes to the write
    block, as the entries for [status.files], a list of one entry that is
    not read from any filesystem: the [FileInfo] with name [example.txt],
    inode 12345, size 1024, path [/tmp/example.txt], not a directory,
    and the current clock reading as modification time, whatever the
    item and its path.  A status update that the write block submits
    carries under [status.files] exactly the entries the block was
    given. *)
Theorem entries_are_the_placeholder (namespace : string)
    (item : Unstructured) (w : World Σ) :
  updateItem namespace item w =
    writeStatus namespace (GetName item) item
      [FileInfo_json VInt
         {| Name := "example.txt"; Inode := 12345; Size := 1024;
            ModTime := wall w (reads w);
            Path := "/tmp/example.txt"; IsDir := false |}]
      (mkWorld (cluster w) (wall w) (S (reads w))
         (trace w ++ [EvLog "Updating CRD: %s" [AStr (GetName item)]]))
  ∧ ∀ name files,
      Forall (fun '(_, obj) =>
                NestedFieldNoCopy (Object obj) statusFiles
                  = Some (VSlice files))
        (updateRequests (events (writeStatus namespace name item files) w)).
Proof.
  split; [reflexivity |].
  intros name files. rewrite updateRequests_writeStatus.
  destruct (SetNestedSlice (Object item) files statusFiles)
    as [[obj | err] | msg] eqn:E; [| constructor | constructor].
  apply SetNestedSlice_frame in E as [_ Hfiles].
  constructor; [done | constructor].
Qed.
End Entries.

(** C5 (as amended). The entries computed for an item are a function of
    the clock reading alone, and they do depend on it: two computations
    give the same entries exactly when their clock readings print to the
    same RFC 3339 timestamp.  Neither the record, nor its previous status,
    nor the order of anything enters the computation. *)
Theorem entries_determined_by_clock (t1 t2 : Time) :
  fileInfo t1 = fileInfo t2 <-> Format_RFC3339 t1 = Format_RFC3339 t2.
Proof.
  split.
  - intros E. apply (f_equal modTimeOf) in E.
    rewrite !fileInfo_modTime in E. congruence.
  - intros E. unfold fileInfo. by rewrite E.
Qed.

(** ** The loop over the listed items (lines 188-219) and the cycle *)

Section Loop.
Context {Σ : Type} `{!DynamicInterface Σ}.

Lemma processed_app (t1 t2 : list event) :
  processed (t1 ++ t2) = processed t1 ++ processed t2.
Proof. apply omap_app. Qed.

Lemma processed_writeStatus (namespace name : string) (item : Unstructured)
    (files : list value) (w : World Σ) :
  processed (events (writeStatus namespace name item files) w) = [].
Proof.
  rewrite events_writeStatus.
  destruct (SetNestedSlice (Object item) files statusFiles)
    as [[obj | err] | msg]; [| done | done].
  rewrite events_submitStatus.
  by destruct (client_UpdateStatus _ _ _).1.
Qed.

Lemma appends_any {A} (c : M Σ A) (w : World Σ) :
  appendsAt (fun _ => True) c w ->
  trace (c w).2 = trace w ++ events c w.
Proof. intros (evs & E & _). by rewrite (events_of_appended _ _ _ E). Qed.

Lemma events_updateItem (namespace : string) (item : Unstructured)
    (w : World Σ) :
  events (updateItem namespace item) w =
    EvLog updatingFormat [AStr (GetName item)]
    :: events (writeStatus namespace (GetName item) item
                 (fileInfo (wall w (reads w))))
         (mkWorld (cluster w) (wall w) (S (reads w))
            (trace w ++ [EvLog updatingFormat [AStr (GetName item)]])).
Proof.
  apply events_of_appended. rewrite updateItem_run.
  rewrite appends_any by (by apply appends_writeStatus).
  simpl. by rewrite <- app_assoc.
Qed.

Lemma processed_updateItem (namespace : string) (item : Unstructured)
    (w : World Σ) :
  processed (events (updateItem namespace item) w) = [GetName item].
Proof.
  rewrite events_updateItem. simpl. by rewrite processed_writeStatus.
Qed.

Lemma appends_updateItem_any (namespace : string) (item : Unstructured) :
  appends (fun _ => True) (updateItem namespace item).
Proof. by apply appends_updateItem. Qed.

(** The items whose processing starts are an initial segment of the
    items of the loop, in their order. *)
Lemma processed_forRange (namespace : string) (items : list Unstructured)
    (w : World Σ) :
  processed (events (forRange items (updateItem namespace)) w)
    `prefix_of` (GetName <$> items).
Proof.
  revert w. induction items as [| item rest IH]; intros w; simpl forRange.
  - unfold events. simpl. by rewrite drop_all.
  - rewrite (events_bind (fun _ => True)).
    + rewrite processed_app, processed_updateItem. simpl.
      apply prefix_cons.
      destruct (updateItem namespace item w) as [[[] | msg] w1].
      * apply IH.
      * apply prefix_nil.
    + apply appends_updateItem_any.
    + intros _. apply appends_forRange. intros x _.
      apply appends_updateItem_any.
Qed.

Lemma Forall_requests (P Q : event -> Prop) (evs : list event) :
  (∀ e, isRequest e = true -> P e -> Q e) ->
  Forall P evs -> Forall Q (requests evs).
Proof.
  intros HPQ. unfold requests.
  induction 1 as [| e evs He _ IH]; simpl; [constructor |].
  destruct (isRequest e) eqn:Er; auto.
Qed.

Lemma appends_updateCRDWithFileInfo (P : event -> Prop) (namespace : string) :
  (∀ format args, P (EvLog format args)) ->
  P (EvList (Some namespace)) ->
  (∀ obj, P (EvUpdateStatus namespace obj)) ->
  appends P (updateCRDWithFileInfo namespace).
Proof.
  intros Hlog Hlist Hreq w.
  apply appendsAt_updateCRDWithFileInfo; auto.
Qed.

Lemma appends_queryCRDs (P : event -> Prop) :
  (∀ format args, P (EvLog format args)) ->
  P (EvList None) ->
  appends P queryCRDs.
Proof.
  intros Hlog Hlist. unfold queryCRDs.
  apply appends_bind; [apply appends_emit, Hlog | intros _].
  apply appends_bind; [by apply appends_List |].
  intros [items | err].
  - apply appends_bind; [apply appends_emit, Hlog | intros _].
    apply appends_bind; [| intros _; apply appends_ret].
    apply appends_forRange. intros item _.
    apply appends_bind; [apply appends_emit, Hlog | intros _].
    apply appends_bind; [apply appends_lift | intros spec].
    apply appends_bind.
    { destruct spec; [apply appends_emit, Hlog | apply appends_ret]. }
    intros _. apply appends_bind; [apply appends_lift | intros status].
    destruct status; [apply appends_emit, Hlog | apply appends_ret].
  - destruct (IsNotFound err); [| apply appends_ret].
    apply appends_bind; [apply appends_emit, Hlog | intros _; apply appends_ret].
Qed.

Lemma appends_queryCRDsInNamespace (P : event -> Prop) (namespace : string) :
  (∀ format args, P (EvLog format args)) ->
  P (EvList (Some namespace)) ->
  appends P (queryCRDsInNamespace namespace).
Proof.
  intros Hlog Hlist. unfold queryCRDsInNamespace.
  apply appends_bind; [apply appends_emit, Hlog | intros _].
  apply appends_bind; [by apply appends_List |].
  intros [items | err].
  - apply appends_bind; [apply appends_emit, Hlog | intros _].
    apply appends_bind; [| intros _; apply appends_ret].
    apply appends_forRange. intros item _. apply appends_emit, Hlog.
  - destruct (IsNotFound err); [| apply appends_ret].
    apply appends_bind; [apply appends_emit, Hlog | intros _; apply appends_ret].
Qed.

Lemma appends_cycle (P : event -> Prop) :
  (∀ format args, P (EvLog format args)) ->
  (∀ seconds, P (EvSleep seconds)) ->
  P (EvList None) ->
  P (EvList (Some "default")) ->
  (∀ obj, P (EvUpdateStatus "default" obj)) ->
  appends P cycle.
Proof.
  intros Hlog Hsleep Hall Hns Hreq. unfold cycle.
  apply appends_bind; [apply appends_emit, Hlog | intros _].
  apply appends_bind; [by apply appends_queryCRDs | intros e1].
  apply appends_bind.
  { destruct e1; [apply appends_emit, Hlog | apply appends_ret]. }
  intros _.
  apply appends_bind; [by apply appends_queryCRDsInNamespace | intros e2].
  apply appends_bind.
  { destruct e2; [apply appends_emit, Hlog | apply appends_ret]. }
  intros _.
  apply appends_bind; [by apply appends_updateCRDWithFileInfo | intros e3].
  apply appends_bind.
  { destruct e3; [apply appends_emit, Hlog | apply appends_ret]. }
  intros _. apply appends_emit, Hsleep.
Qed.

Lemma events_updateCRDWithFileInfo (namespace : string) (w : World Σ) :
  events (updateCRDWithFileInfo namespace) w =
    [EvLog "Updating CRDs with file information in namespace: %s"
           [AStr namespace];
     EvList (Some namespace)]
    ++ match client_List (Some namespace) (cluster w) with
       | (Ok items, c) =>
           events (forRange items (updateItem namespace))
             (mkWorld c (wall w) (reads w)
                (trace w ++
                 [EvLog "Updating CRDs with file information in namespace: %s"
                        [AStr namespace];
                  EvList (Some namespace)]))
       | (Err err, _) =>
           if IsNotFound err then
             [EvLog "No CRDs found to update in namespace %s" [AStr namespace]]
           else []
       end.
Proof.
  apply events_of_appended. unfold updateCRDWithFileInfo.
  unfold mbind at 1 2, M_bind at 1 2, log, emit, Resource_List. cbn.
  destruct (client_List (Some namespace) (cluster w)) as [[items | err] c].
  - rewrite <- app_assoc. simpl app.
    set (w2 := mkWorld c _ _ _).
    pose proof (appends_any (forRange items (updateItem namespace)) w2) as E.
    unfold mbind, M_bind.
    destruct (forRange items (updateItem namespace) w2) as [[[] | msg] w3];
      simpl in *.
    all: rewrite E; [by rewrite drop_app_length, <- app_assoc |].
    all: apply (appends_forRange (fun _ => True)); intros x _.
    all: apply appends_updateItem_any.
  - destruct (IsNotFound err); run; by rewrite <- !app_assoc.
Qed.

(** C7 (as amended). In every pass of [updateCRDWithFileInfo] the items
    whose processing starts are, in order, an initial segment of the
    items the listing of the given namespace returned, and every request
    of the pass names that namespace.  In the loop of [main] the namespace
    is ["default"]: a cycle lists all namespaces and lists ["default"],
    and sends status updates to ["default"] only. *)
Theorem processing_follows_namespaced_listing (namespace : string)
    (w : World Σ) :
  processed (events (updateCRDWithFileInfo namespace) w)
    `prefix_of` match (client_List (Some namespace) (cluster w)).1 with
                | Ok items => GetName <$> items
                | Err _ => []
                end
  ∧ Forall (fun e => e = EvList (Some namespace)
                     ∨ ∃ obj, e = EvUpdateStatus namespace obj)
      (requests (events (updateCRDWithFileInfo namespace) w))
  ∧ Forall (fun e => e = EvList None ∨ e = EvList (Some "default")
                     ∨ ∃ obj, e = EvUpdateStatus "default" obj)
      (requests (events cycle w)).
Proof.
  split; [| split].
  - rewrite events_updateCRDWithFileInfo, processed_app. simpl.
    destruct (client_List (Some namespace) (cluster w)) as [[items | err] c];
      simpl.
    + apply processed_forRange.
    + by destruct (IsNotFound err).
  - destruct (appends_updateCRDWithFileInfo
                (fun e => isRequest e = true ->
                          e = EvList (Some namespace)
                          ∨ ∃ obj, e = EvUpdateStatus namespace obj)
                namespace) with (w := w) as (evs & E & HP);
      try (by intros); eauto.
    rewrite (events_of_appended _ _ _ E).
    eapply Forall_requests; [| exact HP]. auto.
  - destruct (appends_cycle
                (fun e => isRequest e = true ->
                          e = EvList None ∨ e = EvList (Some "default")
                          ∨ ∃ obj, e = EvUpdateStatus "default" obj))
      with (w := w) as (evs & E & HP);
      try (by intros); eauto.
    rewrite (events_of_appended _ _ _ E).
    eapply Forall_requests; [| exact HP]. auto.
Qed.
End Loop.

(** ** The panic of the loop body *)

Section Panic.
Context {Σ : Type} `{!DynamicInterface Σ}.

(** The loop body panics for every item: the entries of [fileInfo] hold
    Go [int]s, and [SetNestedSlice] deep-copies its argument before it
    looks at the object. *)
Lemma updateItem_panics (namespace : string) (item : Unstructured)
    (w : World Σ) :
  updateItem namespace item w =
    (Panicked deepCopyPanic,
     mkWorld (cluster w) (wall w) (S (reads w))
       (trace w ++ [EvLog updatingFormat [AStr (GetName item)]])).
Proof.
  rewrite updateItem_run, writeStatus_run, SetNestedSlice_statusFiles.
  by rewrite fileInfo_not_copyable.
Qed.

(** Hence a pass over a non-empty listing ends in a panic while the first
    item is processed: no other item is reached and no status update is
    sent. *)
Lemma updateCRDWithFileInfo_panics (namespace : string) (w : World Σ)
    (item : Unstructured) (rest : list Unstructured) (c : Σ) :
  client_List (Some namespace) (cluster w) = (Ok (item :: rest), c) ->
  (updateCRDWithFileInfo namespace w).1 = Panicked deepCopyPanic
  ∧ processed (events (updateCRDWithFileInfo namespace) w) = [GetName item]
  ∧ updateRequests (events (updateCRDWithFileInfo namespace) w) = [].
Proof.
  intros El. split; [| split].
  - unfold updateCRDWithFileInfo.
    unfold mbind at 1 2, M_bind at 1 2, log, emit, Resource_List. cbn.
    rewrite El. simpl forRange. unfold mbind, M_bind.
    by rewrite updateItem_panics.
  - rewrite events_updateCRDWithFileInfo, El. simpl forRange.
    rewrite processed_app. simpl.
    unfold events, mbind, M_bind. rewrite updateItem_panics. simpl.
    by rewrite drop_app_length.
  - rewrite events_updateCRDWithFileInfo, El. simpl forRange.
    unfold events, mbind, M_bind. rewrite updateItem_panics. simpl.
    by rewrite drop_app_length.
Qed.

(** With entries that can be copied, the loop over the items goes
    through every item and finishes, whatever fails on the way: this is
    what the two [continue] statements are for. *)
Lemma loop_finishes_with_copyable_entries (namespace : string)
    (files : list value) (items : list Unstructured) (w : World Σ) :
  DeepCopyJSONValue (VSlice files) ≠ None ->
  (forRange items
     (fun item => writeStatus namespace (GetName item) item files) w).1
  = Done tt.
Proof.
  intros Hcopy. revert w. induction items as [| item rest IH]; intros w.
  - done.
  - simpl forRange. unfold mbind, M_bind. rewrite writeStatus_run.
    rewrite SetNestedSlice_statusFiles.
    destruct (DeepCopyJSONValue (VSlice files)); [| done].
    destruct (Object item !! "status") as [[] |];
      rewrite ?submitStatus_run; apply IH.
Qed.
End Panic.

(** ** Runs on concrete inputs *)

(** The formatter on the timestamp of the README. *)
Example Format_RFC3339_readme : Format_RFC3339 1736762400 = "2025-01-13T10:00:00Z".
Proof. reflexivity. Qed.

(** The write block on record [a] with entries that can be copied: one
    status update, accepted, after which the cluster holds the entries. *)
Example write_block_updates_status :
  let w := startWorld oneRecord clock0 in
  let r := writeStatus "default" "a" recordA (entries64 0) w in
  r.1 = Done tt
  ∧ events (writeStatus "default" "a" recordA (entries64 0)) w =
      [EvUpdateStatus "default" (withFiles (entries64 0) recordA);
       EvLog "Successfully updated CRD: %s" [AStr "a"]]
  ∧ (fun o => NestedFieldNoCopy (Object o) statusFiles) <$> objects (cluster r.2)
    = [Some (VSlice (entries64 0))]
  ∧ resourceVersion <$> objects (cluster r.2) = ["1+"].
Proof. vm_compute. done. Qed.

(** The same with a stale version token: the update is refused, logged,
    and the cluster is as before. *)
Example write_block_conflict :
  let w := startWorld oneRecord clock0 in
  let r := writeStatus "default" "a" staleA (entries64 0) w in
  r.1 = Done tt
  ∧ events (writeStatus "default" "a" staleA (entries64 0)) w =
      [EvUpdateStatus "default" (withFiles (entries64 0) staleA);
       EvLog "Failed to update CRD %s: %v" [AStr "a"; AErr conflict]]
  ∧ cluster r.2 = oneRecord.
Proof. vm_compute. done. Qed.

(** Witness of C9: the resource type is not installed, against an
    installed one with no record. *)
Lemma listing_error_handling_witness :
  let w := startWorld notInstalled clock0 in
  let w0 := startWorld emptyCluster clock0 in
  client_List None (cluster w) = (Err notFound, notInstalled)
  ∧ client_List (Some "default") (cluster w) = (Err notFound, notInstalled)
  ∧ client_List None (cluster w0) = (Ok [], emptyCluster)
  ∧ client_List (Some "default") (cluster w0) = (Ok [], emptyCluster)
  ∧ (queryCRDs w).1 = Done None
  ∧ (queryCRDsInNamespace "default" w).1 = Done None
  ∧ (updateCRDWithFileInfo "default" w).1 = Done None
  ∧ events (updateCRDWithFileInfo "default") w =
      [EvLog "Updating CRDs with file information in namespace: %s"
             [AStr "default"];
       EvList (Some "default");
       EvLog "No CRDs found to update in namespace %s" [AStr "default"]]
  ∧ (queryCRDs w0).1 = Done None
  ∧ (queryCRDsInNamespace "default" w0).1 = Done None
  ∧ (updateCRDWithFileInfo "default" w0).1 = Done None.
Proof.
  intros w w0.
  assert (client_List None (cluster w) = (Err notFound, notInstalled))
    as H1 by reflexivity.
  assert (client_List (Some "default") (cluster w)
          = (Err notFound, notInstalled)) as H2 by reflexivity.
  assert (client_List None (cluster w0) = (Ok [], emptyCluster))
    as H3 by reflexivity.
  assert (client_List (Some "default") (cluster w0) = (Ok [], emptyCluster))
    as H4 by reflexivity.
  destruct (listing_error_handling "default" w notFound) as (A & B & C).
  destruct (A _ H1) as (A1 & _).
  destruct (B _ H2) as ((B1 & _) & (B2 & E2)).
  destruct (C w0 eq_refl) as (C1 & C2).
  destruct (C2 _ H4) as (C3 & C4).
  split; [exact H1 | split; [exact H2 | split; [exact H3 | split; [exact H4 |]]]].
  split; [exact A1 | split; [exact B1 | split; [exact B2 | split; [exact E2 |]]]].
  split; [exact (C1 _ H3) | split; [exact C3 | exact C4]].
Defined.

(** Counterexample to C1 as stated: [/data] holds the file [a.txt]; after
    a cycle the stored record [a], whose root path is [/data], has no
    [status.files] at all, so its status is not the snapshot of [/data]. *)
Lemma status_after_cycle_is_not_the_scan :
  let c := cluster (cycle (startWorld oneRecord clock0)).2 in
  spec_Scan dataFs "/data" true = Snapshot [dataFile]
  ∧ ¬ Forall (statusReflectsScan dataFs) (objects c).
Proof.
  split; [reflexivity |].
  intros H. apply Forall_inv in H. specialize (H true [dataFile] eq_refl).
  vm_compute in H. discriminate.
Qed.

(** Counterexample to C5 as stated: one second later the entries computed
    are different ones. *)
Lemma entries_differ_one_second_apart :
  fileInfo 1736762400 ≠ fileInfo 1736762401.
Proof.
  intros E. apply (f_equal modTimeOf) in E.
  rewrite !fileInfo_modTime in E. vm_compute in E. discriminate.
Qed.

(** Counterexample to C7 as stated: record [b] of namespace [prod] is
    returned by the enumeration of all namespaces, and its processing is
    never started. *)
Lemma other_namespace_never_processed :
  let w := startWorld twoNamespaces clock0 in
  (client_List None (cluster w)).1 = Ok [recordA; recordB]
  ∧ ¬ everyRecordProcessedOnce w.
Proof.
  split; [reflexivity |].
  intros H. specialize (H [recordA; recordB] recordB eq_refl).
  assert (recordB ∈ [recordA; recordB]) as Hin by (right; left).
  specialize (H Hin). vm_compute in H. discriminate.
Qed.

(** C8, on the failing input: two records in namespace [default].  The
    cycle panics while the first one is processed; the second one is
    never reached, no status update is sent, and the process is gone. *)
Theorem first_record_ends_the_process :
  let w := startWorld twoRecords clock0 in
  (cycle w).1 = Panicked "cannot deep copy int"
  ∧ processed (events cycle w) = ["a"]
  ∧ updateRequests (events cycle w) = []
  ∧ (main_loop 2 w).1 = Panicked "cannot deep copy int".
Proof. vm_compute. done. Qed.

(** ** More about computations *)

Section Advance.
Context {Σ : Type} `{!DynamicInterface Σ}.

Lemma advance_nil (w : World Σ) : advance (cluster w) [] w = w.
Proof. destruct w. unfold advance. simpl. by rewrite app_nil_r. Qed.

Lemma advance_advance (c c' : Σ) (evs evs' : list event) (w : World Σ) :
  advance c' evs' (advance c evs w) = advance c' (evs ++ evs') w.
Proof. unfold advance. simpl. by rewrite app_assoc. Qed.

Lemma events_advance {A} (f : M Σ A) (w : World Σ) (o : outcome A) (c : Σ)
    (evs : list event) :
  f w = (o, advance c evs w) -> events f w = evs.
Proof. intros E. apply events_of_appended. by rewrite E. Qed.

(** A loop whose body always finishes, adding the lines of its item and
    leaving the cluster alone, adds the lines of all items in order. *)
Lemma forRange_lines {A} (items : list A) (body : A -> M Σ unit)
    (lines : A -> list event) (w : World Σ) :
  (∀ item w', item ∈ items ->
     body item w' = (Done tt, advance (cluster w') (lines item) w')) ->
  forRange items body w
  = (Done tt, advance (cluster w) (List.concat (lines <$> items)) w).
Proof.
  revert w. induction items as [| item rest IH]; intros w Hbody; simpl.
  - by rewrite advance_nil.
  - unfold mbind, M_bind. rewrite Hbody by left.
    rewrite IH by (intros x w' Hx; apply Hbody; by right).
    simpl. by rewrite advance_advance.
Qed.

Lemma requests_app (t1 t2 : list event) :
  requests (t1 ++ t2) = requests t1 ++ requests t2.
Proof. unfold requests. apply List.filter_app. Qed.

Lemma updateRequests_app (t1 t2 : list event) :
  updateRequests (t1 ++ t2) = updateRequests t1 ++ updateRequests t2.
Proof. apply omap_app. Qed.

Lemma sleeps_app (t1 t2 : list event) :
  sleeps (t1 ++ t2) = sleeps t1 ++ sleeps t2.
Proof. apply omap_app. Qed.

(** Events that are log lines hold no request and no sleep. *)
Lemma only_logs (evs : list event) :
  Forall (fun e => ∃ format args, e = EvLog format args) evs ->
  requests evs = [] ∧ sleeps evs = [] ∧ updateRequests evs = [].
Proof.
  induction 1 as [| e evs (format & args & ->) _ (IH1 & IH2 & IH3)]; [done |].
  unfold requests in *. simpl. by rewrite IH1, IH2, IH3.
Qed.

Lemma appendsAt_events {A} (P : event -> Prop) (c : M Σ A) (w : World Σ) :
  appendsAt P c w -> Forall P (events c w).
Proof. intros (evs & E & HP). by rewrite (events_of_appended _ _ _ E). Qed.
End Advance.

(** The fields of a map that can be deep-copied can be deep-copied. *)
Lemma copy_map_None (f : value -> option value) (m : gmap string value) :
  map_fold (fun k v acc => clone ← acc; v' ← f v; Some (<[k := v']> clone))
    (Some (∅ : gmap string value)) m = None
  <-> ∃ k v, m !! k = Some v ∧ f v = None.
Proof.
  apply (map_fold_weak_ind
           (fun (o : option (gmap string value)) (m : gmap string value) =>
              o = None <-> ∃ k v, m !! k = Some v ∧ f v = None)).
  - split; [done |]. intros (k & v & Hk & _). by rewrite lookup_empty in Hk.
  - intros i x m' o Hi IH. split.
    + intros E. destruct o as [clone |]; simpl in E.
      * exists i, x. rewrite lookup_insert_eq. split; [done |].
        by destruct (f x).
      * destruct (proj1 IH eq_refl) as (k & v & Hk & Hv).
        exists k, v. split; [| done].
        rewrite lookup_insert_ne; [done | congruence].
    + intros (k & v & Hk & Hv). rewrite lookup_insert in Hk.
      case_decide; simplify_eq.
      * destruct o; simpl; [by rewrite Hv | done].
      * assert (o = None) as -> by (apply IH; eauto). done.
Qed.

Lemma DeepCopyJSONValue_field (m : gmap string value) (k : string) (v : value) :
  DeepCopyJSONValue (VMap m) ≠ None -> m !! k = Some v ->
  DeepCopyJSONValue v = Some v.
Proof.
  intros Hm Hk. destruct (DeepCopyJSONValue v) as [copy |] eqn:E.
  - by apply DeepCopyJSONValue_same in E as ->.
  - exfalso. apply Hm. simpl.
    assert (map_fold _ (Some ∅) m = None) as ->; [| done].
    apply (copy_map_None DeepCopyJSONValue). eauto.
Qed.

(** [NestedMap] at one field of an object that can be deep-copied. *)
Lemma NestedMap_field (u : Unstructured) (field : string) :
  DeepCopyJSONValue (VMap (Object u)) ≠ None ->
  NestedMap (Object u) [field] = Done (mapField field u).
Proof.
  intros Hcopy. unfold NestedMap, mapField. cbn [NestedFieldNoCopy].
  destruct (Object u !! field) as [[| | | | | | m] |] eqn:E; try done.
  by rewrite (DeepCopyJSONValue_field _ _ _ Hcopy E).
Qed.

(** ** The two listing functions (lines 118-172) *)

Section Queries.
Context {Σ : Type} `{!DynamicInterface Σ}.

Lemma concat_singletons {A B} (f : A -> B) (l : list A) :
  List.concat ((fun x => [f x]) <$> l) = f <$> l.
Proof. induction l as [| x l IH]; csimpl; [done | by rewrite IH]. Qed.

Lemma queryCRDsInNamespace_run (namespace : string) (w : World Σ) :
  queryCRDsInNamespace namespace w =
    let '(r, c) := client_List (Some namespace) (cluster w) in
    let start := [EvLog "Querying CRDs in namespace: %s" [AStr namespace];
                  EvList (Some namespace)] in
    match r with
    | Ok items =>
        (Done None,
         advance c
           (start
            ++ [EvLog "Found %d CRDs in namespace: %s"
                      [AInt (Z.of_nat (Datatypes.length items)); AStr namespace]]
            ++ ((fun item => EvLog "CRD: %s" [AStr (GetName item)]) <$> items))
           w)
    | Err err =>
        if IsNotFound err then
          (Done None,
           advance c (start ++ [EvLog "No CRDs found in namespace %s"
                                      [AStr namespace]]) w)
        else
          (Done (Some (Errorf ("failed to list CRDs in namespace " +:+ namespace
                               +:+ ": ") err)),
           advance c start w)
    end.
Proof.
  unfold queryCRDsInNamespace.
  unfold mbind at 1 2, M_bind at 1 2, log, emit, Resource_List. cbn.
  destruct (client_List (Some namespace) (cluster w)) as [[items | err] c].
  - unfold mbind at 1, M_bind at 1. cbn.
    unfold mbind, M_bind.
    rewrite (forRange_lines items _
               (fun item => [EvLog "CRD: %s" [AStr (GetName item)]])).
    + unfold advance, mret, M_ret. simpl.
      by rewrite concat_singletons, <- !app_assoc.
    + intros item w' _. done.
  - destruct (IsNotFound err); run; unfold advance; simpl;
      by rewrite <- ?app_assoc.
Qed.


Lemma isLog_log (format : string) (args : list arg) :
  ∃ format' args', EvLog format args = EvLog format' args'.
Proof. eauto. Qed.

Lemma appends_queryCRDsItem (item : Unstructured) :
  appends (fun e => ∃ format args, e = EvLog format args)
    (queryCRDsItem item : M Σ unit).
Proof.
  unfold queryCRDsItem.
  apply appends_bind; [apply appends_emit, isLog_log | intros _].
  apply appends_bind; [apply appends_lift | intros spec].
  apply appends_bind.
  { destruct spec; [apply appends_emit, isLog_log | apply appends_ret]. }
  intros _. apply appends_bind; [apply appends_lift | intros status].
  destruct status; [apply appends_emit, isLog_log | apply appends_ret].
Qed.

(** After its listing [queryCRDs] only logs. *)
Lemma queryCRDs_run (w : World Σ) :
  queryCRDs w =
    let '(r, c) := client_List None (cluster w) in
    let w' := advance c [EvLog "Querying CRDs in all namespaces..." [];
                         EvList None] w in
    match r with
    | Ok items =>
        (log "Found %d CRDs across all namespaces"
             [AInt (Z.of_nat (Datatypes.length items))];;
         forRange items queryCRDsItem;;
         mret None) w'
    | Err err =>
        if IsNotFound err then
          (Done None,
           advance c [EvLog "CRD not found - it may not be installed yet" []] w')
        else (Done (Some (Errorf "failed to list CRDs: " err)), w')
    end.
Proof.
  unfold queryCRDs.
  unfold mbind at 1 2, M_bind at 1 2, log at 1, emit at 1, Resource_List. cbn.
  destruct (client_List None (cluster w)) as [[items | err] c].
  - unfold advance. simpl. by rewrite <- app_assoc.
  - destruct (IsNotFound err); run; unfold advance; simpl;
      by rewrite <- ?app_assoc.
Qed.

Lemma queryCRDs_events (w : World Σ) :
  ∃ logs, events queryCRDs w
          = [EvLog "Querying CRDs in all namespaces..." []; EvList None] ++ logs
    ∧ Forall (fun e => ∃ format args, e = EvLog format args) logs.
Proof.
  pose proof (queryCRDs_run w) as E.
  destruct (client_List None (cluster w)) as [[items | err] c]; cbv zeta in E.
  - set (w' := advance c _ w) in E.
    set (rest := (log _ _;; forRange items queryCRDsItem;; mret None)) in E.
    assert (appends (fun e => ∃ format args, e = EvLog format args) rest) as Hrest.
    { subst rest.
      apply appends_bind; [apply appends_emit, isLog_log | intros _].
      apply appends_bind; [| intros _; apply appends_ret].
      apply appends_forRange. intros item _. apply appends_queryCRDsItem. }
    destruct (Hrest w') as (logs & Et & Hlogs).
    exists logs. split; [| done].
    apply events_of_appended. rewrite E, Et.
    subst w'. unfold advance. simpl. by rewrite <- app_assoc.
  - destruct (IsNotFound err).
    + eexists. split.
      * eapply events_advance. rewrite E, advance_advance. reflexivity.
      * repeat constructor. apply isLog_log.
    + exists []. split; [| constructor].
      eapply events_advance. rewrite E. by rewrite app_nil_r.
Qed.

(** X1. The two listing functions only read: whatever the cluster answers,
    [queryCRDs] sends the one listing of all namespaces and
    [queryCRDsInNamespace] the one listing of its namespace, neither sends
    a status update, and [queryCRDsInNamespace] always finishes (it cannot
    panic). *)
Theorem listing_functions_only_read (namespace : string) (w : World Σ) :
  requests (events queryCRDs w) = [EvList None]
  ∧ updateRequests (events queryCRDs w) = []
  ∧ requests (events (queryCRDsInNamespace namespace) w)
    = [EvList (Some namespace)]
  ∧ updateRequests (events (queryCRDsInNamespace namespace) w) = []
  ∧ ∃ answer, (queryCRDsInNamespace namespace w).1 = Done answer.
Proof.
  destruct (queryCRDs_events w) as (logs & -> & Hlogs).
  apply only_logs in Hlogs as (R & _ & U).
  rewrite requests_app, updateRequests_app, R, U.
  split; [done | split; [done |]].
  pose proof (queryCRDsInNamespace_run namespace w) as E.
  destruct (client_List (Some namespace) (cluster w)) as [[items | err] c].
  - rewrite (events_advance _ _ _ _ _ E), E.
    assert (Forall (fun e => ∃ format args, e = EvLog format args)
              ((fun item => EvLog "CRD: %s" [AStr (GetName item)]) <$> items))
      as Hl by (apply Forall_fmap, Forall_forall; intros; apply isLog_log).
    apply only_logs in Hl as (R' & _ & U').
    rewrite !requests_app, !updateRequests_app, R', U'. simpl. eauto.
  - destruct (IsNotFound err);
      rewrite (events_advance _ _ _ _ _ E), E; simpl; eauto.
Qed.
End Queries.

Section QueriesOnSuccess.
Context {Σ : Type} `{!DynamicInterface Σ}.

Lemma queryCRDsItem_run (item : Unstructured) (w : World Σ) :
  DeepCopyJSONValue (VMap (Object item)) ≠ None ->
  queryCRDsItem item w
  = (Done tt, advance (cluster w) (queryCRDsItemLines item) w).
Proof.
  intros Hcopy. unfold queryCRDsItem, queryCRDsItemLines.
  rewrite !NestedMap_field by done.
  destruct (mapField "spec" item), (mapField "status" item);
    run; unfold advance; simpl; by rewrite <- ?app_assoc, ?app_nil_r.
Qed.

(** X2. When the listing of all namespaces succeeds and the objects it
    returns are JSON values (they can be deep-copied, as every object
    decoded from the API server can), [queryCRDs] returns [nil] and logs,
    after the number of items, for each item in the order of the listing:
    its name and namespace, its [spec] if that is a map, and its [status]
    if that is a map, the maps being logged as they are.  It reads no clock
    and leaves the cluster as the listing left it. *)
Theorem queryCRDs_logs_every_item (w : World Σ) (items : list Unstructured)
    (c : Σ) :
  client_List None (cluster w) = (Ok items, c) ->
  (∀ item, item ∈ items -> DeepCopyJSONValue (VMap (Object item)) ≠ None) ->
  queryCRDs w
  = (Done None,
     advance c
       ([EvLog "Querying CRDs in all namespaces..." [];
         EvList None;
         EvLog "Found %d CRDs across all namespaces"
               [AInt (Z.of_nat (Datatypes.length items))]]
        ++ List.concat (queryCRDsItemLines <$> items))
       w).
Proof.
  intros El Hcopy. rewrite queryCRDs_run, El. cbv zeta.
  unfold mbind at 1, M_bind at 1, log, emit. cbn.
  unfold mbind, M_bind.
  rewrite (forRange_lines items _ queryCRDsItemLines).
  - unfold advance, mret, M_ret. simpl. by rewrite <- !app_assoc.
  - intros item w' Hitem. apply queryCRDsItem_run. by apply Hcopy.
Qed.

(** X3. When the listing of the namespace succeeds,
    [queryCRDsInNamespace] returns [nil] and logs the number of items and
    then one line with the name of each item, in the order of the listing;
    an item without a name is logged with the empty name. *)
Theorem queryCRDsInNamespace_logs_every_name (namespace : string)
    (w : World Σ) (items : list Unstructured) (c : Σ) :
  client_List (Some namespace) (cluster w) = (Ok items, c) ->
  queryCRDsInNamespace namespace w
  = (Done None,
     advance c
       ([EvLog "Querying CRDs in namespace: %s" [AStr namespace];
         EvList (Some namespace);
         EvLog "Found %d CRDs in namespace: %s"
               [AInt (Z.of_nat (Datatypes.length items)); AStr namespace]]
        ++ ((fun item => EvLog "CRD: %s" [AStr (GetName item)]) <$> items))
       w).
Proof.
  intros El. rewrite queryCRDsInNamespace_run, El. cbv zeta.
  unfold advance. simpl. by rewrite <- ?app_assoc.
Qed.
End QueriesOnSuccess.

(** Witness of X2: the two records of [twoNamespaces]. *)
Lemma queryCRDs_logs_every_item_witness :
  let w := startWorld twoNamespaces clock0 in
  client_List None (cluster w) = (Ok [recordA; recordB], twoNamespaces)
  ∧ (∀ item, item ∈ [recordA; recordB] ->
       DeepCopyJSONValue (VMap (Object item)) ≠ None)
  ∧ (queryCRDs w).1 = Done None
  ∧ processed (events queryCRDs w) = []
  ∧ Datatypes.length (events queryCRDs w) = 7%nat.
Proof.
  intros w.
  assert (client_List None (cluster w) = (Ok [recordA; recordB], twoNamespaces))
    as H1 by reflexivity.
  assert (∀ item, item ∈ [recordA; recordB] ->
            DeepCopyJSONValue (VMap (Object item)) ≠ None) as H2.
  { intros item Hitem. apply elem_of_cons in Hitem as [-> | Hitem].
    - vm_compute. discriminate.
    - apply list_elem_of_singleton in Hitem as ->. vm_compute. discriminate. }
  pose proof (queryCRDs_logs_every_item w _ _ H1 H2) as E.
  split; [exact H1 | split; [exact H2 |]].
  rewrite (events_advance _ _ _ _ _ E), E. simpl fst.
  split; [reflexivity |].
  split; [vm_compute; reflexivity |].
  vm_compute. reflexivity.
Defined.

(** Witness of X3: namespace [default] of [twoRecords]. *)
Lemma queryCRDsInNamespace_logs_every_name_witness :
  let w := startWorld twoRecords clock0 in
  client_List (Some "default") (cluster w) = (Ok [recordA; recordC], twoRecords)
  ∧ events (queryCRDsInNamespace "default") w
    = [EvLog "Querying CRDs in namespace: %s" [AStr "default"];
       EvList (Some "default");
       EvLog "Found %d CRDs in namespace: %s" [AInt 2; AStr "default"];
       EvLog "CRD: %s" [AStr "a"];
       EvLog "CRD: %s" [AStr "c"]].
Proof.
  intros w.
  assert (client_List (Some "default") (cluster w)
          = (Ok [recordA; recordC], twoRecords)) as H1 by (by vm_compute).
  split; [exact H1 |].
  exact (events_advance _ _ _ _ _
           (queryCRDsInNamespace_logs_every_name "default" w _ _ H1)).
Defined.

(** ** Computations that only log *)

Section LogsOnly.
Context {Σ : Type} `{!DynamicInterface Σ}.

Lemma logsOnly_ret {A} (a : A) : logsOnly (mret a : M Σ A).
Proof.
  intros w. exists (Done a), []. split; [| constructor].
  unfold mret, M_ret. by rewrite advance_nil.
Qed.

Lemma logsOnly_lift {A} (o : outcome A) : logsOnly (lift o : M Σ A).
Proof.
  destruct o as [a | msg]; [apply logsOnly_ret |].
  intros w. exists (Panicked msg), []. split; [| constructor].
  unfold lift, panic. by rewrite advance_nil.
Qed.

Lemma logsOnly_log (format : string) (args : list arg) :
  logsOnly (log format args : M Σ unit).
Proof.
  intros w. exists (Done tt), [EvLog format args].
  split; [done | repeat constructor; eauto].
Qed.

Lemma logsOnly_bind {A B} (c : M Σ A) (k : A -> M Σ B) :
  logsOnly c -> (∀ a, logsOnly (k a)) -> logsOnly (c ≫= k).
Proof.
  intros Hc Hk w. destruct (Hc w) as (o & logs & E & Hlogs).
  unfold mbind, M_bind. rewrite E. destruct o as [a | msg].
  - destruct (Hk a (advance (cluster w) logs w)) as (o' & logs' & E' & Hlogs').
    exists o', (logs ++ logs'). split; [| by apply Forall_app].
    rewrite E'. by rewrite advance_advance.
  - by exists (Panicked msg), logs.
Qed.

Lemma logsOnly_forRange {A} (items : list A) (body : A -> M Σ unit) :
  (∀ item, logsOnly (body item)) -> logsOnly (forRange items body).
Proof.
  intros Hbody. induction items as [| item rest IH]; simpl.
  - apply logsOnly_ret.
  - apply logsOnly_bind; [apply Hbody | intros _; apply IH].
Qed.

Lemma logsOnly_queryCRDsItem (item : Unstructured) :
  logsOnly (queryCRDsItem item : M Σ unit).
Proof.
  unfold queryCRDsItem.
  apply logsOnly_bind; [apply logsOnly_log | intros _].
  apply logsOnly_bind; [apply logsOnly_lift | intros spec].
  apply logsOnly_bind.
  { destruct spec; [apply logsOnly_log | apply logsOnly_ret]. }
  intros _. apply logsOnly_bind; [apply logsOnly_lift | intros status].
  destruct status; [apply logsOnly_log | apply logsOnly_ret].
Qed.

(** The shape of every run of [queryCRDs]: the first line, the listing,
    then log lines only. *)
Lemma queryCRDs_shape (w : World Σ) :
  ∃ o logs,
    queryCRDs w
    = (o, advance (client_List None (cluster w)).2
            ([EvLog "Querying CRDs in all namespaces..." []; EvList None]
             ++ logs) w)
    ∧ Forall (fun e => ∃ format args, e = EvLog format args) logs.
Proof.
  rewrite queryCRDs_run.
  destruct (client_List None (cluster w)) as [[items | err] c]; cbv zeta.
  - set (rest := (log _ _;; forRange items queryCRDsItem;; mret None)).
    assert (logsOnly rest) as Hrest.
    { subst rest.
      apply logsOnly_bind; [apply logsOnly_log | intros _].
      apply logsOnly_bind; [| intros _; apply logsOnly_ret].
      apply logsOnly_forRange. intros item. apply logsOnly_queryCRDsItem. }
    destruct (Hrest (advance c [EvLog "Querying CRDs in all namespaces..." [];
                                EvList None] w))
      as (o & logs & E & Hlogs).
    exists o, logs. split; [| done]. rewrite E. by rewrite advance_advance.
  - destruct (IsNotFound err).
    + eexists _, _. split; [by rewrite advance_advance |].
      repeat constructor. eauto.
    + eexists _, []. split; [by rewrite app_nil_r | constructor].
Qed.

(** The same for [queryCRDsInNamespace], which always finishes. *)
Lemma queryCRDsInNamespace_shape (namespace : string) (w : World Σ) :
  ∃ answer logs,
    queryCRDsInNamespace namespace w
    = (Done answer,
       advance (client_List (Some namespace) (cluster w)).2
         ([EvLog "Querying CRDs in namespace: %s" [AStr namespace];
           EvList (Some namespace)] ++ logs) w)
    ∧ Forall (fun e => ∃ format args, e = EvLog format args) logs.
Proof.
  rewrite queryCRDsInNamespace_run.
  destruct (client_List (Some namespace) (cluster w)) as [[items | err] c];
    cbv zeta.
  - eexists _, _. split; [reflexivity |].
    constructor; [eauto |].
    apply Forall_fmap, Forall_forall. intros; simpl; eauto.
  - destruct (IsNotFound err).
    + eexists _, _. split; [reflexivity | repeat constructor; eauto].
    + eexists _, []. split; [by rewrite app_nil_r | constructor].
Qed.

(** Every run of [updateCRDWithFileInfo]: with no item or a failed listing
    it finishes after log lines; with an item it panics on the first one,
    after one reading of the clock. *)
Lemma updateCRDWithFileInfo_run (namespace : string) (w : World Σ) :
  updateCRDWithFileInfo namespace w =
    let '(r, c) := client_List (Some namespace) (cluster w) in
    let start :=
      [EvLog "Updating CRDs with file information in namespace: %s"
             [AStr namespace];
       EvList (Some namespace)] in
    match r with
    | Ok [] => (Done None, advance c start w)
    | Ok (item :: _) =>
        (Panicked deepCopyPanic,
         mkWorld c (wall w) (S (reads w))
           (trace w ++ start ++ [EvLog updatingFormat [AStr (GetName item)]]))
    | Err err =>
        if IsNotFound err then
          (Done None,
           advance c (start ++ [EvLog "No CRDs found to update in namespace %s"
                                      [AStr namespace]]) w)
        else
          (Done (Some (Errorf "failed to list CRDs for update: " err)),
           advance c start w)
    end.
Proof.
  unfold updateCRDWithFileInfo.
  unfold mbind at 1 2, M_bind at 1 2, log at 1, emit at 1, Resource_List. cbn.
  destruct (client_List (Some namespace) (cluster w)) as [[[| item rest] | err] c].
  - run. unfold advance. simpl. by rewrite <- app_assoc.
  - simpl forRange. unfold mbind, M_bind. rewrite updateItem_panics.
    simpl. by rewrite <- !app_assoc.
  - destruct (IsNotFound err); run; unfold advance; simpl;
      by rewrite <- ?app_assoc.
Qed.
End LogsOnly.

(** ** What a pass and a cycle do to the cluster *)

Section Passes.
Context {Σ : Type} `{!DynamicInterface Σ}.

(** X4. A pass of [updateCRDWithFileInfo] never sends a status update,
    whatever the cluster holds and answers: its only request is the
    listing of its namespace, and it leaves the cluster as that listing
    left it. *)
Theorem pass_sends_no_status_update (namespace : string) (w : World Σ) :
  requests (events (updateCRDWithFileInfo namespace) w)
    = [EvList (Some namespace)]
  ∧ updateRequests (events (updateCRDWithFileInfo namespace) w) = []
  ∧ cluster (updateCRDWithFileInfo namespace w).2
    = (client_List (Some namespace) (cluster w)).2.
Proof.
  unfold events. rewrite updateCRDWithFileInfo_run.
  destruct (client_List (Some namespace) (cluster w))
    as [[[| item rest] | err] c]; cbv zeta.
  3: destruct (IsNotFound err).
  all: simpl; rewrite drop_app_length; done.
Qed.

(** X5. A pass of [updateCRDWithFileInfo] panics exactly when the listing
    of its namespace returns at least one item, and then with the message
    of the deep copy; in every other case it finishes. *)
Theorem pass_panics_iff_an_item_is_listed (namespace : string) (w : World Σ) :
  ((∃ msg, (updateCRDWithFileInfo namespace w).1 = Panicked msg)
   <-> ∃ item rest,
         (client_List (Some namespace) (cluster w)).1 = Ok (item :: rest))
  ∧ ∀ msg, (updateCRDWithFileInfo namespace w).1 = Panicked msg ->
           msg = "cannot deep copy int".
Proof.
  rewrite updateCRDWithFileInfo_run.
  destruct (client_List (Some namespace) (cluster w))
    as [[[| item rest] | err] c]; cbv zeta.
  3: destruct (IsNotFound err).
  all: simpl; split; [split |].
  all: try (intros (? & ?); discriminate).
  all: try (intros (? & ? & ?); discriminate).
  all: try (intros ? ?; discriminate).
  - intros _. eauto.
  - intros _. eauto.
  - intros msg [= <-]. done.
Qed.

(** The line of [main] about the error of a function, as a run. *)
Lemma errorLine_run (format : string) (args : list arg) (err : option error)
    (w : World Σ) :
  (match err with
   | Some e => log format (args ++ [AErr e])
   | None => mret tt
   end : M Σ unit) w
  = (Done tt, advance (cluster w) (errorLine format args err) w).
Proof.
  destruct err; simpl; [done |].
  unfold mret, M_ret. by rewrite advance_nil.
Qed.

Lemma errorLine_obs (format : string) (args : list arg) (err : option error) :
  requests (errorLine format args err) = []
  ∧ sleeps (errorLine format args err) = []
  ∧ updateRequests (errorLine format args err) = [].
Proof. by destruct err. Qed.

(** The three kinds of run of a cycle, with the world they end in. *)
Lemma cycle_shape (w : World Σ) :
  ∃ o c r evs,
    cycle w = (o, mkWorld c (wall w) r (trace w ++ evs))
    ∧ updateRequests evs = []
    ∧ match o with
      | Done _ => requests evs = cycleListings ∧ sleeps evs = [30]
      | Panicked _ =>
          (requests evs = [EvList None] ∨ requests evs = cycleListings)
          ∧ sleeps evs = []
      end.
Proof.
  unfold cycle.
  unfold mbind at 1, M_bind at 1, log at 1, emit at 1. cbn [fst snd].
  set (w0 := mkWorld _ _ _ _).
  destruct (queryCRDs_shape w0) as (o1 & logs1 & E1 & H1).
  apply only_logs in H1 as (R1 & S1 & U1).
  unfold mbind at 1, M_bind at 1. rewrite E1.
  destruct o1 as [e1 | msg1].
  2: { eexists _, _, _, _. split.
       - subst w0. unfold advance. cbn [trace cluster wall reads].
         rewrite <- app_assoc. reflexivity.
       - rewrite !updateRequests_app, !requests_app, !sleeps_app, R1, S1, U1.
         simpl. auto. }
  set (w1 := advance _ _ w0).
  unfold mbind at 1, M_bind at 1.
  pose proof (errorLine_run "Error querying CRDs: %v" [] e1 w1) as X1.
  cbn [app] in X1. rewrite X1. clear X1.
  destruct (errorLine_obs "Error querying CRDs: %v" [] e1) as (Rl1 & Sl1 & Ul1).
  set (w1' := advance _ _ w1).
  destruct (queryCRDsInNamespace_shape "default" w1')
    as (e2 & logs2 & E2 & H2).
  apply only_logs in H2 as (R2 & S2 & U2).
  unfold mbind at 1, M_bind at 1. rewrite E2.
  set (w2 := advance _ _ w1').
  unfold mbind at 1, M_bind at 1.
  pose proof (errorLine_run "Error querying CRDs in namespace %s: %v"
                [AStr "default"] e2 w2) as X2.
  cbn [app] in X2. rewrite X2. clear X2.
  destruct (errorLine_obs "Error querying CRDs in namespace %s: %v"
              [AStr "default"] e2) as (Rl2 & Sl2 & Ul2).
  set (w2' := advance _ _ w2).
  unfold mbind at 1, M_bind at 1. rewrite updateCRDWithFileInfo_run.
  destruct (client_List (Some "default") (cluster w2'))
    as [[[| item rest] | err] c3]; cbv zeta.
  3: destruct (IsNotFound err).
  all: unfold mbind, M_bind, mret, M_ret, log, emit.
  all: eexists _, _, _, _; split;
    [subst w2' w2 w1' w1 w0; unfold advance, time_Sleep, emit;
     cbn [trace cluster wall reads fst snd];
     rewrite <- ?app_assoc; reflexivity |].
  all: rewrite ?updateRequests_app, ?requests_app, ?sleeps_app.
  all: rewrite ?R1, ?S1, ?U1, ?Rl1, ?Sl1, ?Ul1, ?R2, ?S2, ?U2, ?Rl2, ?Sl2, ?Ul2.
  all: simpl; auto.
Qed.

Lemma cycle_cases (w : World Σ) :
  ∃ evs,
    events cycle w = evs
    ∧ updateRequests evs = []
    ∧ match (cycle w).1 with
      | Done _ => requests evs = cycleListings ∧ sleeps evs = [30]
      | Panicked _ =>
          (requests evs = [EvList None] ∨ requests evs = cycleListings)
          ∧ sleeps evs = []
      end.
Proof.
  destruct (cycle_shape w) as (o & c & r & evs & E & U & H).
  exists evs. split; [| split; [done | by rewrite E]].
  apply events_of_appended. by rewrite E.
Qed.
End Passes.

Section Cycles.
Context {Σ : Type} `{!DynamicInterface Σ}.

(** X6. Every cycle, whatever the cluster answers: no status update is
    sent; the requests are the listing of all namespaces and then the
    listing of ["default"] twice, in this order, or an initial part of
    that; a cycle that finishes has sent all three and has slept once,
    for 30 seconds; a cycle that panics has not slept. *)
Theorem cycle_requests_and_sleep (w : World Σ) :
  updateRequests (events cycle w) = []
  ∧ requests (events cycle w) `prefix_of` cycleListings
  ∧ match (cycle w).1 with
    | Done _ =>
        requests (events cycle w) = cycleListings
        ∧ sleeps (events cycle w) = [30]
    | Panicked _ => sleeps (events cycle w) = []
    end.
Proof.
  destruct (cycle_cases w) as (evs & -> & U & H).
  split; [done |]. destruct (cycle w).1.
  - destruct H as [-> ?]. done.
  - destruct H as [[-> | ->] ?]; split; try done.
    by exists [EvList (Some "default"); EvList (Some "default")].
Qed.

Lemma appends_main_loop (n : nat) : appends (fun _ => True) (main_loop n).
Proof.
  induction n as [| n IH]; simpl.
  - apply appends_ret.
  - apply appends_bind; [by apply appends_cycle | intros _; apply IH].
Qed.

Lemma events_main_loop_S (n : nat) (w : World Σ) :
  events (main_loop (S n)) w
  = events cycle w ++ match cycle w with
                      | (Done _, w1) => events (main_loop n) w1
                      | (Panicked _, _) => []
                      end.
Proof.
  simpl main_loop. apply (events_bind (fun _ => True)).
  - by apply appends_cycle.
  - intros _. apply appends_main_loop.
Qed.

(** X7. However long the loop of [main] runs, it never sends a status
    update: every request it sends is a listing. *)
Theorem loop_never_updates (n : nat) (w : World Σ) :
  updateRequests (events (main_loop n) w) = []
  ∧ Forall (fun e => ∃ namespace, e = EvList namespace)
      (requests (events (main_loop n) w)).
Proof.
  revert w. induction n as [| n IH]; intros w.
  - unfold events. simpl. rewrite drop_all. by split.
  - rewrite events_main_loop_S, updateRequests_app, requests_app.
    destruct (cycle_cases w) as (evs & -> & U & Hr).
    rewrite U. simpl.
    assert (Forall (fun e => ∃ namespace, e = EvList namespace) (requests evs))
      as Hc.
    { destruct (cycle w).1; [destruct Hr as [-> _] | destruct Hr as [[-> | ->] _]];
        repeat constructor; eauto. }
    clear Hr. destruct (cycle w) as [[[] | msg] w1].
    + destruct (IH w1) as [-> H2]. split; [done | by apply Forall_app].
    + split; [done |]. by rewrite app_nil_r.
Qed.

(** X9. The loop sleeps once, for 30 seconds, after every cycle that
    finishes and at no other time: after [n] iterations that have not
    panicked it has slept [n] times, after [n] iterations that have, fewer
    than [n] times. *)
Theorem loop_sleeps_after_finished_cycles (n : nat) (w : World Σ) :
  ∃ k, sleeps (events (main_loop n) w) = replicate k 30
       ∧ match (main_loop n w).1 with
         | Done _ => k = n
         | Panicked _ => (k < n)%nat
         end.
Proof.
  revert w. induction n as [| n IH]; intros w.
  - exists 0%nat. unfold events. simpl. by rewrite drop_all.
  - rewrite events_main_loop_S, sleeps_app.
    destruct (cycle_cases w) as (evs & -> & _ & Hs).
    simpl main_loop. unfold mbind, M_bind.
    destruct (cycle w) as [[[] | msg] w1]; simpl in Hs.
    + destruct Hs as [_ ->]. destruct (IH w1) as (k & -> & Hk).
      exists (S k). split; [done |].
      destruct (main_loop n w1).1; simpl; lia.
    + destruct Hs as [_ ->]. exists 0%nat. split; [done | simpl; lia].
Qed.
End Cycles.

(** ** The status differ *)







(** Scenarios A, B and C of the design document, section 8. *)
Example Diff_scenario_A :
  Diff [] [aTxt 10; bTxt] = mkChangeSet [aTxt 10; bTxt] [] [].
Proof. reflexivity. Qed.

Example Diff_scenario_B :
  Diff [aTxt 10] [aTxt 15] = mkChangeSet [] [] [(aTxt 10, aTxt 15)].
Proof. reflexivity. Qed.

Example Diff_scenario_C :
  Diff [aTxt 10; bTxt] [aTxt 10] = mkChangeSet [] ["/data/b.txt"] [].
Proof. reflexivity. Qed.

(** ** Reconciliation against the design document *)

Section Reconciliation.
Context {Σ : Type} `{!DynamicInterface Σ}.

Lemma GetName_withSpec (spec : value) (item : Unstructured) :
  GetName (withSpec spec item) = GetName item.
Proof.
  unfold GetName, getNestedString, withSpec. simpl.
  by rewrite lookup_insert_ne.
Qed.

(** The events of a pass, by the answer of the listing. *)
Lemma pass_events (namespace : string) (w : World Σ) :
  events (updateCRDWithFileInfo namespace) w =
    [EvLog "Updating CRDs with file information in namespace: %s"
           [AStr namespace];
     EvList (Some namespace)]
    ++ match (client_List (Some namespace) (cluster w)).1 with
       | Ok [] => []
       | Ok (item :: _) => [EvLog updatingFormat [AStr (GetName item)]]
       | Err err =>
           if IsNotFound err
           then [EvLog "No CRDs found to update in namespace %s"
                       [AStr namespace]]
           else []
       end.
Proof.
  unfold events. rewrite updateCRDWithFileInfo_run.
  destruct (client_List (Some namespace) (cluster w))
    as [[[| item rest] | err] c]; cbv zeta.
  3: destruct (IsNotFound err) eqn:E.
  all: simpl; rewrite drop_app_length; by rewrite ?E.
Qed.

Lemma pass_outcome (namespace : string) (w : World Σ) :
  (updateCRDWithFileInfo namespace w).1 =
    match (client_List (Some namespace) (cluster w)).1 with
    | Ok [] => Done None
    | Ok (_ :: _) => Panicked deepCopyPanic
    | Err err =>
        if IsNotFound err then Done None
        else Done (Some (Errorf "failed to list CRDs for update: " err))
    end.
Proof.
  rewrite updateCRDWithFileInfo_run.
  destruct (client_List (Some namespace) (cluster w))
    as [[[| item rest] | err] c]; cbv zeta; try done.
  simpl. by destruct (IsNotFound err).
Qed.


(** C3 (as amended). A pass never looks at the [spec] of a record, where
    the root path is.  The loop body does the same for an item whatever
    its [spec] is; two passes whose listings return the same items up to
    their [spec]s end the same way and leave the same events, log lines
    included; every line of a pass has one of the six formats of
    [updateCRDWithFileInfo], none of which reports a scan; and no status
    update is sent. *)
Theorem pass_ignores_spec (namespace : string) (w w' : World Σ)
    (items : list Unstructured) (spec : Unstructured -> value) :
  (client_List (Some namespace) (cluster w)).1 = Ok items ->
  (client_List (Some namespace) (cluster w')).1
    = Ok ((fun item => withSpec (spec item) item) <$> items) ->
  (∀ item w0,
     updateItem namespace (withSpec (spec item) item) w0
     = updateItem namespace item w0)
  ∧ (updateCRDWithFileInfo namespace w').1
    = (updateCRDWithFileInfo namespace w).1
  ∧ events (updateCRDWithFileInfo namespace) w'
    = events (updateCRDWithFileInfo namespace) w
  ∧ Forall (fun e => ∀ format args, e = EvLog format args ->
                       format ∈ passFormats)
      (events (updateCRDWithFileInfo namespace) w)
  ∧ updateRequests (events (updateCRDWithFileInfo namespace) w) = [].
Proof.
  intros Hw Hw'. split; [| split; [| split; [| split]]].
  - intros item w0. by rewrite !updateItem_panics, GetName_withSpec.
  - rewrite !pass_outcome, Hw, Hw'. by destruct items.
  - rewrite !pass_events, Hw, Hw'. destruct items as [| item rest]; [done |].
    simpl. by rewrite GetName_withSpec.
  - rewrite pass_events, Hw. unfold passFormats.
    destruct items as [| item rest]; simpl.
    all: repeat (constructor; [intros format args [= <- _]; set_solver |]).
    all: constructor; by intros format args [=].
  - rewrite pass_events, Hw. by destruct items.
Qed.
End Reconciliation.


(** Witness of C3: record [a] with the root path [/data], against the
    same record with the root path [/nowhere]. *)
Lemma pass_ignores_spec_witness :
  let w := startWorld oneRecord clock0 in
  let w' := startWorld oneRecordElsewhere clock0 in
  (client_List (Some "default") (cluster w)).1 = Ok [recordA]
  ∧ (client_List (Some "default") (cluster w')).1
    = Ok [withSpec elsewhere recordA]
  ∧ specPath recordA = "/data"
  ∧ specPath (withSpec elsewhere recordA) = "/nowhere"
  ∧ (updateCRDWithFileInfo "default" w').1
    = (updateCRDWithFileInfo "default" w).1
  ∧ events (updateCRDWithFileInfo "default") w'
    = events (updateCRDWithFileInfo "default") w.
Proof.
  intros w w'.
  assert ((client_List (Some "default") (cluster w)).1 = Ok [recordA])
    as H1 by (vm_compute; reflexivity).
  assert ((client_List (Some "default") (cluster w')).1
          = Ok [withSpec elsewhere recordA])
    as H2 by (vm_compute; reflexivity).
  split; [exact H1 |]. split; [exact H2 |].
  split; [vm_compute; reflexivity |]. split; [vm_compute; reflexivity |].
  destruct (pass_ignores_spec "default" w w' [recordA] (fun _ => elsewhere)
              H1 H2) as (_ & Ho & He & _).
  split; [exact Ho | exact He].
Defined.

(** Counterexample to C3 as stated: on an empty filesystem the root path
    [/data] of record [a] does not exist; the pass announces the record
    and panics in the deep copy, as it does for every record, and nothing
    it logs reports a failed scan of [a]. *)
Lemma missing_path_reports_no_failure :
  let w := startWorld oneRecord clock0 in
  ¬ pathExists [] (specPath recordA)
  ∧ listed "default" w = [recordA]
  ∧ events (updateCRDWithFileInfo "default") w
    = [EvLog "Updating CRDs with file information in namespace: %s"
             [AStr "default"];
       EvList (Some "default");
       EvLog "Updating CRD: %s" [AStr "a"]]
  ∧ (updateCRDWithFileInfo "default" w).1 = Panicked "cannot deep copy int"
  ∧ ¬ reportsMissingPath [] "default" w.
Proof.
  intros w.
  assert (¬ pathExists [] (specPath recordA)) as Hmissing
    by (intros Hex; by apply Hex).
  assert (listed "default" w = [recordA]) as Hl by (vm_compute; reflexivity).
  assert (events (updateCRDWithFileInfo "default") w
          = [EvLog "Updating CRDs with file information in namespace: %s"
                   [AStr "default"];
             EvList (Some "default");
             EvLog "Updating CRD: %s" [AStr "a"]]) as Hev.
  { rewrite pass_events.
    replace (client_List (Some "default") (cluster w)).1 with
      (Ok [recordA] : result (list Unstructured)) by (vm_compute; reflexivity).
    reflexivity. }
  split; [exact Hmissing |]. split; [exact Hl |]. split; [exact Hev |].
  split.
  - rewrite pass_outcome.
    replace (client_List (Some "default") (cluster w)).1 with
      (Ok [recordA] : result (list Unstructured)) by (vm_compute; reflexivity).
    reflexivity.
  - intros H. destruct (H recordA) as [Hreport _].
    + rewrite Hl. left.
    + exact Hmissing.
    + apply Hreport. rewrite Hev. reflexivity.
Qed.

(** ** A cluster whose listings fail *)

Section Failing.
Context {Σ : Type} `{!DynamicInterface Σ}.

Lemma cycle_finishes_when_listings_fail (w : World Σ) (err : error) :
  (∀ selector c, (client_List selector c).1 = Err err) ->
  (cycle w).1 = Done tt.
Proof.
  intros H.
  unfold cycle, queryCRDs, queryCRDsInNamespace, updateCRDWithFileInfo.
  run.
  repeat match goal with
         | |- context [client_List ?s ?c] =>
             let E := fresh "E" in
             pose proof (H s c) as E;
             destruct (client_List s c) as [? ?]; simpl in E; subst; simpl
         | |- context [IsNotFound err] =>
             destruct (IsNotFound err); simpl
         end.
  all: done.
Qed.

(** X10. Failed listings do not stop a cycle.  If every listing fails
    with the error [err], the cycle sends its three listings all the same,
    finishes and sleeps; for an error that [errors.IsNotFound] accepts each
    function logs its own line about it and [main] logs nothing, for every
    other error [main] logs one line per function with the error the
    function returned. *)
Theorem cycle_survives_failed_listings (w : World Σ) (err : error) :
  (∀ selector c, (client_List selector c).1 = Err err) ->
  (cycle w).1 = Done tt
  ∧ events cycle w
    = [EvLog "Querying CRDs..." [];
       EvLog "Querying CRDs in all namespaces..." [];
       EvList None]
      ++ (if IsNotFound err
          then [EvLog "CRD not found - it may not be installed yet" []]
          else [EvLog "Error querying CRDs: %v"
                      [AErr (Errorf "failed to list CRDs: " err)]])
      ++ [EvLog "Querying CRDs in namespace: %s" [AStr "default"];
          EvList (Some "default")]
      ++ (if IsNotFound err
          then [EvLog "No CRDs found in namespace %s" [AStr "default"]]
          else [EvLog "Error querying CRDs in namespace %s: %v"
                      [AStr "default";
                       AErr (Errorf "failed to list CRDs in namespace default: "
                               err)]])
      ++ [EvLog "Updating CRDs with file information in namespace: %s"
                [AStr "default"];
          EvList (Some "default")]
      ++ (if IsNotFound err
          then [EvLog "No CRDs found to update in namespace %s" [AStr "default"]]
          else [EvLog "Error updating CRD with file info: %v"
                      [AErr (Errorf "failed to list CRDs for update: " err)]])
      ++ [EvSleep 30].
Proof.
  intros H. split; [by eapply cycle_finishes_when_listings_fail |].
  unfold events, cycle, queryCRDs, queryCRDsInNamespace, updateCRDWithFileInfo.
  unfold mbind, mret, M_bind, M_ret, log, emit, time_Sleep, Resource_List.
  cbn [fst snd cluster wall reads trace].
  destruct (IsNotFound err) eqn:Enf.
  all: repeat match goal with
         | |- context [client_List ?s ?c] =>
             let E := fresh "E" in
             let r := fresh "r" in
             pose proof (H s c) as E;
             destruct (client_List s c) as [r ?]; cbn [fst] in E; subst r;
             cbn [fst snd cluster wall reads trace]; rewrite ?Enf;
             cbn [fst snd cluster wall reads trace]
         end.
  all: unfold emit; cbn [fst snd cluster wall reads trace].
  all: rewrite <- ?app_assoc, ?drop_app_length; reflexivity.
Qed.

(** X11. While every listing fails the loop of [main] keeps going: [n]
    iterations finish, with the three listings sent [n] times over and
    [n] sleeps. *)
Theorem loop_survives_failed_listings (n : nat) (w : World Σ) (err : error) :
  (∀ selector c, (client_List selector c).1 = Err err) ->
  (main_loop n w).1 = Done tt
  ∧ requests (events (main_loop n) w)
    = List.concat (replicate n cycleListings)
  ∧ sleeps (events (main_loop n) w) = replicate n 30.
Proof.
  intros H. revert w. induction n as [| n IH]; intros w.
  - unfold events. simpl. by rewrite drop_all.
  - rewrite events_main_loop_S, requests_app, sleeps_app.
    pose proof (cycle_finishes_when_listings_fail w err H) as Hd.
    destruct (cycle_cases w) as (evs & -> & _ & Hc).
    simpl main_loop. unfold mbind, M_bind.
    destruct (cycle w) as [[[] | msg] w1]; simpl in Hd, Hc; [| done].
    destruct Hc as [-> ->]. destruct (IH w1) as (-> & -> & ->). done.
Qed.
End Failing.

(** Witness of X10 and X11: every request is answered with "service
    unavailable". *)
Lemma cycle_survives_failed_listings_witness :
  let w := startWorld unreachable clock0 in
  (∀ selector c, (client_List selector c).1 = Err serviceUnavailable)
  ∧ (cycle w).1 = Done tt
  ∧ requests (events cycle w) = cycleListings
  ∧ Datatypes.length (events cycle w) = 11%nat.
Proof.
  intros w.
  assert (∀ (selector : option string) (c : Unreachable),
            (client_List selector c).1 = Err serviceUnavailable) as H by done.
  destruct (cycle_survives_failed_listings w serviceUnavailable H) as [Hd He].
  split; [exact H | split; [exact Hd |]].
  rewrite He. split; vm_compute; reflexivity.
Defined.

Lemma loop_survives_failed_listings_witness :
  let w := startWorld unreachable clock0 in
  (∀ selector c, (client_List selector c).1 = Err serviceUnavailable)
  ∧ (main_loop 3 w).1 = Done tt
  ∧ sleeps (events (main_loop 3) w) = [30; 30; 30].
Proof.
  intros w.
  assert (∀ (selector : option string) (c : Unreachable),
            (client_List selector c).1 = Err serviceUnavailable) as H by done.
  destruct (loop_survives_failed_listings 3 w serviceUnavailable H)
    as (Hd & _ & Hs).
  split; [exact H | split; [exact Hd | exact Hs]].
Defined.

(** ** Returned errors *)

Section ReturnedErrors.
Context {Σ : Type} `{!DynamicInterface Σ}.

Lemma Errorf_not_NotFound (prefix : string) (err : error) :
  IsNotFound (Errorf prefix err) = false.
Proof. reflexivity. Qed.

(** X12. An error returned by [queryCRDs], [queryCRDsInNamespace] or
    [updateCRDWithFileInfo] is never one that [errors.IsNotFound] accepts:
    it is a new error made from the text of a listing error that was not
    "not found" itself, so the caller cannot ask it for a reason or a
    code. *)
Theorem returned_errors_are_not_NotFound (namespace : string) (w : World Σ)
    (e : error) :
  (queryCRDs w).1 = Done (Some e)
  ∨ (queryCRDsInNamespace namespace w).1 = Done (Some e)
  ∨ (updateCRDWithFileInfo namespace w).1 = Done (Some e) ->
  IsNotFound e = false
  ∧ ∃ prefix cause, e = Errorf prefix cause ∧ IsNotFound cause = false.
Proof.
  intros [H | [H | H]]; revert H.
  - rewrite queryCRDs_run.
    destruct (client_List None (cluster w)) as [[items | err] c]; cbv zeta.
    + unfold mbind at 1, M_bind at 1, log, emit. cbn.
      unfold mbind, M_bind.
      by destruct (forRange items queryCRDsItem _) as [[[] | msg] w'].
    + destruct (IsNotFound err) eqn:Enf; simpl; [done |].
      intros [= <-]. split; [done | eauto].
  - rewrite queryCRDsInNamespace_run.
    destruct (client_List (Some namespace) (cluster w)) as [[items | err] c];
      cbv zeta; [done |].
    destruct (IsNotFound err) eqn:Enf; simpl; [done |].
    intros [= <-]. split; [done | eauto].
  - rewrite updateCRDWithFileInfo_run.
    destruct (client_List (Some namespace) (cluster w))
      as [[[| item rest] | err] c]; cbv zeta; [done | done |].
    destruct (IsNotFound err) eqn:Enf; simpl; [done |].
    intros [= <-]. split; [done | eauto].
Qed.
End ReturnedErrors.

(** Witness of X12: the error of [queryCRDs] against a cluster that
    cannot be reached. *)
Lemma returned_errors_are_not_NotFound_witness :
  let w := startWorld unreachable clock0 in
  let e := Errorf "failed to list CRDs: " serviceUnavailable in
  (queryCRDs w).1 = Done (Some e) ∧ IsNotFound e = false.
Proof.
  intros w e.
  assert ((queryCRDs w).1 = Done (Some e)) as H by reflexivity.
  split; [exact H |].
  exact (proj1 (returned_errors_are_not_NotFound "default" w e (or_introl H))).
Defined.

(** ** The start of the process *)

Section BootstrapProperties.
Context {Config Clientset Dynamic : Type}.
Implicit Types (env : Environment Config Clientset Dynamic).

Lemma clientsFor_Ok env (config : Config) (cs : Clientset) (d : Dynamic) :
  clientsFor env config = Ok (cs, d)
  <-> kubernetes_NewForConfig env config = Ok cs
      ∧ dynamic_NewForConfig env config = Ok d.
Proof.
  unfold clientsFor.
  destruct (kubernetes_NewForConfig env config) as [cs' | e1];
    [destruct (dynamic_NewForConfig env config) as [d' | e2] |].
  all: split; [intros [= <- <-] || intros [=] | intros [[= <-] [= <-]] || intros [[=] _] || intros [_ [=]]];
    done.
Qed.

(** X14. [initKubernetesClients] succeeds exactly when a configuration is
    found, the in-cluster one or, only if that one fails, the one of the
    kubeconfig file at [clientcmd.RecommendedHomeFile] with an empty master
    URL, and both clients can be built from that one configuration; the
    two clients returned are the ones built from it. *)
Theorem clients_come_from_one_configuration env (cs : Clientset) (d : Dynamic) :
  initKubernetesClients env = Ok (cs, d)
  <-> ∃ config,
        (rest_InClusterConfig env = Ok config
         ∨ ((∃ e, rest_InClusterConfig env = Err e)
            ∧ clientcmd_BuildConfigFromFlags env ""
                (clientcmd_RecommendedHomeFile env) = Ok config))
        ∧ kubernetes_NewForConfig env config = Ok cs
        ∧ dynamic_NewForConfig env config = Ok d.
Proof.
  unfold initKubernetesClients.
  destruct (rest_InClusterConfig env) as [c1 | e1].
  - rewrite clientsFor_Ok. split.
    + intros [? ?]. exists c1. eauto.
    + intros (config & [[= <-] | [[e [=]] _]] & ? & ?). done.
  - destruct (clientcmd_BuildConfigFromFlags env ""
                (clientcmd_RecommendedHomeFile env)) as [c2 | e2].
    + rewrite clientsFor_Ok. split.
      * intros [? ?]. exists c2. split; [right |]; eauto.
      * intros (config & [[=] | [_ [= <-]]] & ? & ?). done.
    + split; [done |].
      by intros (config & [[=] | [_ [=]]] & _).
Qed.

(** X15. An error of [initKubernetesClients] names the step that failed
    and carries the text of that step's error, and of no other.  It is
    ["failed to build config: "] with the error of the kubeconfig file
    exactly when there is no in-cluster configuration and the file cannot
    be used; ["failed to create clientset: "] with the error of
    [kubernetes.NewForConfig] exactly when that call fails on the
    configuration chosen; ["failed to create dynamic client: "] with the
    error of [dynamic.NewForConfig] exactly when the clientset was built
    and that call fails.  The error of [rest.InClusterConfig()] itself is
    never returned. *)
Theorem init_error_names_the_failed_step env (err : error) :
  initKubernetesClients env = Err err
  <-> (∃ e cause,
         rest_InClusterConfig env = Err e
         ∧ clientcmd_BuildConfigFromFlags env ""
             (clientcmd_RecommendedHomeFile env) = Err cause
         ∧ err = Errorf "failed to build config: " cause)
      ∨ ∃ config,
          (rest_InClusterConfig env = Ok config
           ∨ ((∃ e, rest_InClusterConfig env = Err e)
              ∧ clientcmd_BuildConfigFromFlags env ""
                  (clientcmd_RecommendedHomeFile env) = Ok config))
          ∧ ((∃ cause,
                kubernetes_NewForConfig env config = Err cause
                ∧ err = Errorf "failed to create clientset: " cause)
             ∨ (∃ cs cause,
                  kubernetes_NewForConfig env config = Ok cs
                  ∧ dynamic_NewForConfig env config = Err cause
                  ∧ err = Errorf "failed to create dynamic client: " cause)).
Proof.
  assert (∀ config,
            clientsFor env config = Err err
            <-> (∃ cause,
                   kubernetes_NewForConfig env config = Err cause
                   ∧ err = Errorf "failed to create clientset: " cause)
                ∨ (∃ cs cause,
                     kubernetes_NewForConfig env config = Ok cs
                     ∧ dynamic_NewForConfig env config = Err cause
                     ∧ err = Errorf "failed to create dynamic client: " cause))
    as Hclients.
  { intros config. unfold clientsFor.
    destruct (kubernetes_NewForConfig env config) as [cs | e1];
      [destruct (dynamic_NewForConfig env config) as [d | e2] |].
    - split; [done |].
      intros [(cause & [=] & _) | (cs' & cause & _ & [=] & _)].
    - split.
      + intros [= <-]. right. by exists cs, e2.
      + intros [(cause & [=] & _) | (cs' & cause & _ & [= <-] & ->)]. done.
    - split.
      + intros [= <-]. left. by exists e1.
      + intros [(cause & [= <-] & ->) | (cs' & cause & [=] & _)]. done. }
  unfold initKubernetesClients.
  destruct (rest_InClusterConfig env) as [c1 | e1].
  - rewrite Hclients. split.
    + intros Hstep. right. exists c1. split; [by left | exact Hstep].
    + intros [(e & cause & [=] & _)
             | (config & [[= <-] | [[e [=]] _]] & Hstep)].
      exact Hstep.
  - destruct (clientcmd_BuildConfigFromFlags env ""
                (clientcmd_RecommendedHomeFile env)) as [c2 | e2].
    + rewrite Hclients. split.
      * intros Hstep. right. exists c2. split; [right; eauto | exact Hstep].
      * intros [(e & cause & _ & [=] & _)
               | (config & [[=] | [_ [= <-]]] & Hstep)].
        exact Hstep.
    + split.
      * intros [= <-]. left. by exists e1, e2.
      * intros [(e & cause & _ & [= <-] & ->)
               | (config & [[=] | [_ [=]]] & _)].
        done.
Qed.

End BootstrapProperties.

(** Witness of X14: outside a cluster, with a kubeconfig file. *)
Lemma clients_come_from_one_configuration_witness :
  initKubernetesClients outsideCluster
  = Ok ("/root/.kube/config", "/root/.kube/config")
  ∧ ∃ config,
      clientcmd_BuildConfigFromFlags outsideCluster ""
        (clientcmd_RecommendedHomeFile outsideCluster) = Ok config
      ∧ kubernetes_NewForConfig outsideCluster config = Ok "/root/.kube/config".
Proof.
  assert (initKubernetesClients outsideCluster
          = Ok ("/root/.kube/config", "/root/.kube/config")) as H
    by reflexivity.
  split; [exact H |].
  destruct (proj1 (clients_come_from_one_configuration outsideCluster _ _) H)
    as (config & [Hin | [_ Hk]] & Hc & _); [discriminate |].
  exists config. by split.
Defined.

(** Witness of X15: with no configuration at all the error is that of the
    kubeconfig file, not that of the in-cluster configuration. *)
Lemma init_error_names_the_failed_step_witness :
  initKubernetesClients noConfig
  = Err (PlainError
           "failed to build config: stat /root/.kube/config: no such file or directory").
Proof.
  apply (proj2 (init_error_names_the_failed_step noConfig _)).
  left.
  exists (PlainError "unable to load in-cluster configuration"),
         (PlainError "stat /root/.kube/config: no such file or directory").
  split; [reflexivity | split; reflexivity].
Defined.
